(** * GLOF alert notification system: a shallow embedding of
      [glof_alert_system.py] and of the [/alert] handler of [app.py].

    Python values are modelled as follows.
    - [str] is [string]; the source only searches for and replaces ASCII
      patterns, which commute with the UTF-8 encoding of the text.
    - [Enum] classes are inductive types, [@dataclass] classes are records,
      [None]-able fields are [option]s.
    - The outside world (the SMS gateway, the SMTP relay, the reachability
      probe and the clock) is a record of answers, [World]; every call into
      it is logged as an [Event].
    - Methods that have effects live in the monad [M]: state (the alert
      system object and the alert record being dispatched), Python exceptions
      and the log of events.  A raised exception keeps the state reached so
      far, as in Python. *)

From Stdlib Require Import String Ascii List Bool Arith ZArith QArith Lia.
Import ListNotations.
Close Scope Q_scope.
Open Scope string_scope.
Open Scope list_scope.

(* ================================================================== *)
(** ** Python string primitives *)

Module PyStr.

Definition nl : string := String (ascii_of_nat 10) EmptyString.

(** Truthiness of a [str]: only the empty string is falsy. *)
Definition truthy (s : string) : bool :=
  match s with EmptyString => false | String _ _ => true end.

(** [s.replace(old, new)] for a non-empty [old]: the occurrences of [old]
    are found left to right without overlap.  [skip] counts the characters
    of the occurrence being consumed. *)
Fixpoint replace_from (old new : string) (skip : nat) (s : string) : string :=
  match s with
  | EmptyString => EmptyString
  | String c s' =>
      match skip with
      | S k => replace_from old new k s'
      | O =>
          if String.prefix old s
          then new ++ replace_from old new (String.length old - 1) s'
          else String c (replace_from old new O s')
      end
  end.

Definition replace (old new s : string) : string := replace_from old new 0 s.

(** [sep.join(parts)] *)
Fixpoint join (sep : string) (parts : list string) : string :=
  match parts with
  | [] => ""
  | [p] => p
  | p :: rest => p ++ sep ++ join sep rest
  end.

Definition upper_ascii (c : ascii) : ascii :=
  let n := nat_of_ascii c in
  if (97 <=? n)%nat && (n <=? 122)%nat then ascii_of_nat (n - 32) else c.

(** [s.upper()] on ASCII text. *)
Fixpoint upper (s : string) : string :=
  match s with
  | EmptyString => EmptyString
  | String c s' => String (upper_ascii c) (upper s')
  end.

(** [c in s] for a character. *)
Fixpoint mem_char (c : ascii) (s : string) : bool :=
  match s with
  | EmptyString => false
  | String d s' => Ascii.eqb c d || mem_char c s'
  end.

(** The text of a UTF-8 encoded literal. *)
Definition of_bytes (l : list nat) : string :=
  string_of_list_ascii (map ascii_of_nat l).

End PyStr.

(* ================================================================== *)
(** ** Configuration classes *)

Inductive GLOFRiskLevel := LOW | MODERATE | HIGH | CRITICAL.

(** [risk_level.value] *)
Definition risk_value (r : GLOFRiskLevel) : string :=
  match r with
  | LOW => "Low Risk"
  | MODERATE => "Moderate Risk"
  | HIGH => "High Risk"
  | CRITICAL => "Critical"
  end.

Inductive UserType := LOCAL | ADMIN | RESCUE | EMERGENCY_TEAM.

Definition UserType_eqb (a b : UserType) : bool :=
  match a, b with
  | LOCAL, LOCAL | ADMIN, ADMIN | RESCUE, RESCUE
  | EMERGENCY_TEAM, EMERGENCY_TEAM => true
  | _, _ => false
  end.

Inductive AlertStatus := PENDING | SENT | FAILED | OFFLINE_QUEUED.

Definition AlertStatus_eqb (a b : AlertStatus) : bool :=
  match a, b with
  | PENDING, PENDING | SENT, SENT | FAILED, FAILED
  | OFFLINE_QUEUED, OFFLINE_QUEUED => true
  | _, _ => false
  end.

Record GLOFContact := {
  name : string;
  phone : string;
  email : string;
  user_type : UserType;
  region : string;
  lake_area : string;
  id : option string;
  active : bool;
  contact_created_at : option string
}.

Record GLOFAlert := {
  alert_id : string;
  glacial_lake : string;
  risk_level : GLOFRiskLevel;
  timestamp : string;
  message : string;
  contacts : list (option string);
  status : AlertStatus;
  created_at : string;
  sent_at : option string;
  retry_count : Z;
  (** [{'additional_info': info}] or [None] *)
  additional_data : option string
}.

Definition set_status (s : AlertStatus) (a : GLOFAlert) : GLOFAlert :=
  {| alert_id := alert_id a; glacial_lake := glacial_lake a;
     risk_level := risk_level a; timestamp := timestamp a;
     message := message a; contacts := contacts a; status := s;
     created_at := created_at a; sent_at := sent_at a;
     retry_count := retry_count a; additional_data := additional_data a |}.

Definition set_sent_at (t : string) (a : GLOFAlert) : GLOFAlert :=
  {| alert_id := alert_id a; glacial_lake := glacial_lake a;
     risk_level := risk_level a; timestamp := timestamp a;
     message := message a; contacts := contacts a; status := status a;
     created_at := created_at a; sent_at := Some t;
     retry_count := retry_count a; additional_data := additional_data a |}.

(* ================================================================== *)
(** ** The objects of the alert system *)

Record GLOFContactManager := { cm_contacts : list GLOFContact }.

Record Fast2SMSProvider := {
  api_key : string;
  sender_id : string;
  base_url : string
}.

Record GLOFEmailProvider := {
  smtp_host : string;
  smtp_port : Z;
  username : string;
  password : string
}.

(** [queue.Queue()] is unbounded and first-in first-out: [put] appends at
    the back, [get] removes at the front. *)
Record GLOFOfflineManager := {
  offline_queue : list GLOFAlert;
  is_online : bool
}.

Record GLOFAlertSystem := {
  contact_manager : GLOFContactManager;
  sms_provider : Fast2SMSProvider;
  email_provider : option GLOFEmailProvider;
  offline_manager : GLOFOfflineManager
}.

Definition with_offline_manager (om : GLOFOfflineManager) (self : GLOFAlertSystem)
  : GLOFAlertSystem :=
  {| contact_manager := contact_manager self;
     sms_provider := sms_provider self;
     email_provider := email_provider self;
     offline_manager := om |}.

(* ================================================================== *)
(** ** The outside world *)

(** Python exceptions, as far as the handlers of the source tell them
    apart: [send_glof_sms] catches [requests.exceptions.RequestException]
    only, every other handler catches [Exception]. *)
Inductive PyExn :=
| RequestException (msg : string)
| OtherException (msg : string).

Definition exn_str (e : PyExn) : string :=
  match e with RequestException m | OtherException m => m end.

Inductive res (A : Type) : Type :=
| Ret (a : A)
| Raise (e : PyExn).
Arguments Ret {A} a.
Arguments Raise {A} e.

(** The form posted to the SMS gateway. *)
Record SmsPayload := {
  p_authorization : string;
  p_sender_id : string;
  p_message : string;
  p_language : string;
  p_route : string;
  p_numbers : string
}.

(** What [requests.post] hands back: the status class that
    [raise_for_status] inspects and the outcome of [response.json()]. *)
Record Response := {
  resp_ok : bool;
  resp_json : res string
}.

Inductive SmtpOp :=
| SmtpConnect
| SmtpStartTls
| SmtpLogin
| SmtpSendmail (recipient : string)
| SmtpQuit.

Record World := {
  (** [requests.post(base_url, data=payload, ...)] *)
  requests_post : SmsPayload -> res Response;
  (** [true] when the SMTP step completes, [false] when it raises *)
  smtp : SmtpOp -> bool;
  (** [requests.get("https://www.google.com", timeout=5)] completes *)
  requests_get_ok : bool;
  (** [datetime.now().strftime('%Y-%m-%d %H:%M IST')] *)
  now_ist : string;
  (** [datetime.now().strftime('%Y%m%d_%H%M%S')] *)
  now_compact : string;
  (** [datetime.now().isoformat()] when the alert record is created *)
  now_iso_created : string;
  (** [datetime.now().isoformat()] when the alert is marked sent *)
  now_iso_sent : string
}.

(** The dictionary returned by [send_glof_sms]. *)
Inductive SmsResult :=
| SmsSuccess (response : string)
| SmsFailure (error : string).

(** [sms_result.get('success', False)] *)
Definition sms_get_success (r : SmsResult) : bool :=
  match r with SmsSuccess _ => true | SmsFailure _ => false end.

(** The dictionary returned by [send_glof_email]. *)
Inductive EmailResult :=
| EmailReport (success : bool) (successful_sends : nat)
              (failed_recipients : list string)
| EmailError (error : string).

(** [email_result.get('success', False)] *)
Definition email_get_success (r : EmailResult) : bool :=
  match r with EmailReport s _ _ => s | EmailError _ => false end.

(** What a run leaves in the outside world, in order.  [EvSmsResult] and
    [EvEmailResult] are ghost events: they record how a channel call
    ended. *)
Inductive Event :=
| EvHttpPost (payload : SmsPayload)
| EvSmsResult (r : res SmsResult)
| EvSmtp (op : SmtpOp) (ok : bool)
| EvEmailResult (r : EmailResult)
| EvProbe (ok : bool).

(* ================================================================== *)
(** ** The effect monad *)

(** The mutable objects a dispatch works on: the alert system itself and
    the [GLOFAlert] record allocated by the running [send_glof_alert]
    ([None] while no record has been allocated). *)
Record Mem := {
  m_self : GLOFAlertSystem;
  m_alert : option GLOFAlert
}.

Definition M (A : Type) : Type := Mem -> res A * Mem * list Event.

Definition ret {A} (a : A) : M A := fun m => (Ret a, m, []).

Definition bind {A B} (c : M A) (k : A -> M B) : M B :=
  fun m =>
    match c m with
    | (Ret a, m1, t1) =>
        match k a m1 with (r, m2, t2) => (r, m2, t1 ++ t2) end
    | (Raise e, m1, t1) => (Raise e, m1, t1)
    end.

Definition raise {A} (e : PyExn) : M A := fun m => (Raise e, m, []).

(** [try: c  except ...: handler(e)] *)
Definition try_except {A} (c : M A) (handler : PyExn -> M A) : M A :=
  fun m =>
    match c m with
    | (Ret a, m1, t1) => (Ret a, m1, t1)
    | (Raise e, m1, t1) =>
        match handler e m1 with (r, m2, t2) => (r, m2, t1 ++ t2) end
    end.

Definition emit (e : Event) : M unit := fun m => (Ret tt, m, [e]).

Definition get_self : M GLOFAlertSystem := fun m => (Ret (m_self m), m, []).

Definition put_offline_manager (om : GLOFOfflineManager) : M unit :=
  fun m => (Ret tt,
            {| m_self := with_offline_manager om (m_self m);
               m_alert := m_alert m |}, []).

(** Reading the alert argument of [_send_alert]. *)
Definition get_alert : M GLOFAlert :=
  fun m =>
    match m_alert m with
    | Some a => (Ret a, m, [])
    | None => (Raise (OtherException "no alert record"), m, [])
    end.

Definition put_alert (a : GLOFAlert) : M unit :=
  fun m => (Ret tt, {| m_self := m_self m; m_alert := Some a |}, []).

Definition lift_res {A} (r : res A) : M A := fun m => (r, m, []).

Declare Scope py_scope.
Delimit Scope py_scope with py.
Notation "x <- c ;; k" := (bind c (fun x => k))
  (at level 61, c at next level, right associativity) : py_scope.
Notation "c ;;; k" := (bind c (fun _ => k))
  (at level 61, right associativity) : py_scope.
Open Scope py_scope.

(* ================================================================== *)
(** ** GLOFContactManager *)

Definition predefined_contacts : list GLOFContact :=
  [ {| id := Some "Defence_Base"; name := "DEFENCE AUTHORITY";
       phone := "+918956911720"; email := "bhavsarkrishna02@gmail.com";
       user_type := ADMIN; region := "NORTH_REGION"; lake_area := "ALL";
       active := true; contact_created_at := None |};
    {| id := Some "emergency_team_1"; name := "Emergency Response Team";
       phone := "+919765743155"; email := "rajputmanas593@gmail.com";
       user_type := EMERGENCY_TEAM; region := "NORTH_REGION";
       lake_area := "ALL"; active := true; contact_created_at := None |};
    {| id := Some "rescue_pangong_1";
       name := "Local residential store pangong Tso";
       phone := "+919699216764"; email := "yash61304@gmail.com";
       user_type := RESCUE; region := "NORTH_REGION"; lake_area := "ALL";
       active := true; contact_created_at := None |} ].

Definition GLOFContactManager_init : GLOFContactManager :=
  {| cm_contacts := predefined_contacts |}.

(** [not user_types]: [None] and the empty list are falsy. *)
Definition types_truthy (user_types : option (list UserType)) : bool :=
  match user_types with
  | Some (_ :: _) => true
  | _ => false
  end.

(** [contact.user_type in user_types] *)
Definition type_in (t : UserType) (user_types : option (list UserType)) : bool :=
  match user_types with
  | Some l => existsb (UserType_eqb t) l
  | None => false
  end.

(** The three nested tests of the loop body of [get_contacts_for_lake]. *)
Definition contact_matches (lake_name : string)
    (user_types : option (list UserType)) (contact : GLOFContact) : bool :=
  if (lake_area contact =? "ALL") || (lake_area contact =? lake_name) then
    if negb (types_truthy user_types) || type_in (user_type contact) user_types
    then active contact
    else false
  else false.

Fixpoint get_contacts_loop (lake_name : string)
    (user_types : option (list UserType)) (todo : list GLOFContact)
    (filtered_contacts : list GLOFContact) : list GLOFContact :=
  match todo with
  | [] => filtered_contacts
  | contact :: rest =>
      get_contacts_loop lake_name user_types rest
        (if contact_matches lake_name user_types contact
         then filtered_contacts ++ [contact]
         else filtered_contacts)
  end.

Definition get_contacts_for_lake (self : GLOFContactManager)
    (lake_name : string) (user_types : option (list UserType))
  : list GLOFContact :=
  get_contacts_loop lake_name user_types (cm_contacts self) [].

Definition get_all_contacts (self : GLOFContactManager) : list GLOFContact :=
  filter active (cm_contacts self).

Definition get_contact_by_id (self : GLOFContactManager) (contact_id : string)
  : option GLOFContact :=
  find (fun contact =>
          match id contact with
          | Some i => i =? contact_id
          | None => false
          end)
       (cm_contacts self).

(* ================================================================== *)
(** ** Fast2SMSProvider *)

Definition Fast2SMSProvider_init (key : string) (sender : string)
  : Fast2SMSProvider :=
  {| api_key := key; sender_id := sender;
     base_url := "https://www.fast2sms.com/dev/bulkV2" |}.

(** [num.replace('+91', '').replace('-', '').replace(' ', '')] *)
Definition clean_number (num : string) : string :=
  PyStr.replace " " "" (PyStr.replace "-" "" (PyStr.replace "+91" "" num)).

Definition sms_payload (self : Fast2SMSProvider)
    (phone_numbers : list string) (msg : string) : SmsPayload :=
  let clean_numbers := map clean_number phone_numbers in
  {| p_authorization := api_key self;
     p_sender_id := sender_id self;
     p_message := msg;
     p_language := "english";
     p_route := "q";
     p_numbers := PyStr.join "," clean_numbers |}.

(** [response.raise_for_status()] *)
Definition raise_for_status (response : Response) : M unit :=
  if resp_ok response then ret tt
  else raise (RequestException "HTTP error").

Definition send_glof_sms_try (self : Fast2SMSProvider) (w : World)
    (phone_numbers : list string) (msg : string) : M SmsResult :=
  try_except
    (let payload := sms_payload self phone_numbers msg in
     emit (EvHttpPost payload) ;;;
     response <- lift_res (requests_post w payload) ;;
     raise_for_status response ;;;
     result <- lift_res (resp_json response) ;;
     ret (SmsSuccess result))
    (fun e =>
       match e with
       | RequestException err => ret (SmsFailure err)
       | OtherException _ => raise e
       end).

(** [send_glof_sms], with the ghost event recording how the call ended. *)
Definition send_glof_sms (self : Fast2SMSProvider) (w : World)
    (phone_numbers : list string) (msg : string) : M SmsResult :=
  fun m =>
    match send_glof_sms_try self w phone_numbers msg m with
    | (r, m1, t1) => (r, m1, t1 ++ [EvSmsResult r])
    end.

(* ================================================================== *)
(** ** GLOFEmailProvider *)

(** One call of a method of the [smtplib.SMTP] session. *)
Definition smtp_call (w : World) (op : SmtpOp) : M unit :=
  emit (EvSmtp op (smtp w op)) ;;;
  if smtp w op then ret tt else raise (OtherException "SMTP error").

(** The [for recipient in recipients] loop: a failing [sendmail] is caught
    per recipient. *)
Fixpoint send_each (w : World) (recipients : list string)
    (failed_recipients : list string) (successful_sends : nat)
  : M (list string * nat) :=
  match recipients with
  | [] => ret (failed_recipients, successful_sends)
  | recipient :: rest =>
      st <- try_except
              (smtp_call w (SmtpSendmail recipient) ;;;
               ret (failed_recipients, S successful_sends))
              (fun _ => ret (failed_recipients ++ [recipient],
                             successful_sends)) ;;
      send_each w rest (fst st) (snd st)
  end.

(** The body of [send_glof_email].  Building the MIME message is pure and
    cannot fail; only the SMTP traffic is modelled. *)
Definition send_glof_email_try (self : GLOFEmailProvider) (w : World)
    (recipients : list string) (lake : string) (msg : string)
  : M EmailResult :=
  try_except
    (smtp_call w SmtpConnect ;;;
     smtp_call w SmtpStartTls ;;;
     smtp_call w SmtpLogin ;;;
     st <- send_each w recipients [] 0 ;;
     smtp_call w SmtpQuit ;;;
     ret (EmailReport (Nat.eqb (List.length (fst st)) 0) (snd st) (fst st)))
    (fun e => ret (EmailError (exn_str e))).

(** [send_glof_email], with the ghost event recording its result. *)
Definition send_glof_email (self : GLOFEmailProvider) (w : World)
    (recipients : list string) (lake : string) (msg : string)
  : M EmailResult :=
  r <- send_glof_email_try self w recipients lake msg ;;
  emit (EvEmailResult r) ;;;
  ret r.

(* ================================================================== *)
(** ** GLOFOfflineManager *)

Definition GLOFOfflineManager_init : GLOFOfflineManager :=
  {| offline_queue := []; is_online := true |}.

(** [Queue.put] on an unbounded queue always succeeds, so the handler of
    [add_offline_alert] is never entered. *)
Definition add_offline_alert (self : GLOFOfflineManager) (alert : GLOFAlert)
  : bool * GLOFOfflineManager :=
  (true, {| offline_queue := offline_queue self ++ [alert];
            is_online := is_online self |}).

(** [while not self.offline_queue.empty(): queued_alerts.append(get())] *)
Fixpoint drain_loop (queue : list GLOFAlert) (queued_alerts : list GLOFAlert)
  : list GLOFAlert * list GLOFAlert :=
  match queue with
  | [] => (queued_alerts, [])
  | alert :: rest => drain_loop rest (queued_alerts ++ [alert])
  end.

Definition get_queued_alerts (self : GLOFOfflineManager)
  : list GLOFAlert * GLOFOfflineManager :=
  let '(queued_alerts, queue) := drain_loop (offline_queue self) [] in
  (queued_alerts, {| offline_queue := queue; is_online := is_online self |}).

Definition check_connectivity (w : World) (self : GLOFOfflineManager)
  : bool * GLOFOfflineManager :=
  if requests_get_ok w
  then (true, {| offline_queue := offline_queue self; is_online := true |})
  else (false, {| offline_queue := offline_queue self; is_online := false |}).

(** A method call on [self.offline_manager]. *)
Definition on_offline_manager {A}
    (method : GLOFOfflineManager -> A * GLOFOfflineManager) : M A :=
  self <- get_self ;;
  let '(a, om) := method (offline_manager self) in
  put_offline_manager om ;;;
  ret a.

(* ================================================================== *)
(** ** GLOFMessageFormatter *)

(** U+26A0 U+FE0F and U+2705 in UTF-8. *)
Definition warning_sign : string := PyStr.of_bytes [226; 154; 160; 239; 184; 143].
Definition check_mark : string := PyStr.of_bytes [226; 156; 133].

(** [if not timestamp: timestamp = datetime.now().strftime(...)];
    [clock] is what that call would return. *)
Definition timestamp_or_now (clock : string) (ts : option string) : string :=
  match ts with
  | Some t => if PyStr.truthy t then t else clock
  | None => clock
  end.

(** The message before the optional trailing section. *)
Definition base_message (lake : string) (level : GLOFRiskLevel) (ts : string)
  : string :=
  warning_sign ++ " *[" ++ PyStr.upper (risk_value level) ++ " GLOF ALERT]*"
  ++ PyStr.nl ++ PyStr.nl
  ++ "*Glacial Lake:* " ++ lake ++ PyStr.nl
  ++ "*Risk Level:* " ++ risk_value level ++ PyStr.nl
  ++ "*Time:* " ++ ts ++ PyStr.nl ++ PyStr.nl
  ++ "*Immediate evacuation advised. Emergency team notified.*".

Definition format_glof_message (clock : string) (lake : string)
    (level : GLOFRiskLevel) (ts : option string)
    (additional_info : option string) : string :=
  let ts := timestamp_or_now clock ts in
  let msg := base_message lake level ts in
  match additional_info with
  | Some info =>
      if PyStr.truthy info
      then msg ++ PyStr.nl ++ PyStr.nl ++ "*Additional Info:* " ++ info
      else msg
  | None => msg
  end.

Definition format_all_clear_message (clock : string) (lake : string)
    (ts : option string) : string :=
  let ts := timestamp_or_now clock ts in
  check_mark ++ " *[GLOF ALL CLEAR]*" ++ PyStr.nl ++ PyStr.nl
  ++ "*Glacial Lake:* " ++ lake ++ PyStr.nl
  ++ "*Status:* Risk Level Reduced" ++ PyStr.nl
  ++ "*Time:* " ++ ts ++ PyStr.nl ++ PyStr.nl
  ++ "*Immediate threat has passed. Continue monitoring.*".

(* ================================================================== *)
(** ** GLOFAlertSystem *)

Definition GLOFAlertSystem_init (fast2sms_api_key : string)
    (email_config : option GLOFEmailProvider) : GLOFAlertSystem :=
  {| contact_manager := GLOFContactManager_init;
     sms_provider := Fast2SMSProvider_init fast2sms_api_key "GLOF";
     email_provider := email_config;
     offline_manager := GLOFOfflineManager_init |}.

Definition all_user_types : list UserType :=
  [LOCAL; ADMIN; RESCUE; EMERGENCY_TEAM].

(** [[c.phone for c in contacts if c.phone]] *)
Definition phones_of (cs : list GLOFContact) : list string :=
  map phone (filter (fun c => PyStr.truthy (phone c)) cs).

(** [[c.email for c in contacts if c.email]] *)
Definition emails_of (cs : list GLOFContact) : list string :=
  map email (filter (fun c => PyStr.truthy (email c)) cs).

Definition nonempty {A} (l : list A) : bool :=
  match l with [] => false | _ :: _ => true end.

Definition modify_alert (f : GLOFAlert -> GLOFAlert) : M unit :=
  alert <- get_alert ;;
  put_alert (f alert).

(** [alert.status = OFFLINE_QUEUED; add_offline_alert(alert); return True] *)
Definition queue_offline : M bool :=
  modify_alert (set_status OFFLINE_QUEUED) ;;;
  alert <- get_alert ;;
  on_offline_manager (fun om => add_offline_alert om alert) ;;;
  ret true.

(** How the SMS block of [_send_alert] is left: by its [return True] or by
    falling through with [sms_success]. *)
Inductive Flow :=
| Returned (value : bool)
| Continue (sms_success : bool).

Definition _send_alert (w : World) (cs : list GLOFContact) : M bool :=
  try_except
    (alert <- get_alert ;;
     self <- get_self ;;
     let phone_numbers := phones_of cs in
     let email_addresses := emails_of cs in
     (* Always try SMS first *)
     flow <-
       (if nonempty phone_numbers then
          sms_result <- send_glof_sms (sms_provider self) w phone_numbers
                          (message alert) ;;
          let sms_success := sms_get_success sms_result in
          if negb sms_success then
            (* Queue alert if offline *)
            if negb (is_online (offline_manager self)) then
              r <- queue_offline ;;
              ret (Returned r)
            else ret (Continue sms_success)
          else ret (Continue sms_success)
        else ret (Continue false)) ;;
     match flow with
     | Returned r => ret r
     | Continue sms_success =>
         (* Try emails if online and configured *)
         email_success <-
           (match email_provider self with
            | Some provider =>
                if nonempty email_addresses then
                  if is_online (offline_manager self) then
                    email_result <- send_glof_email provider w email_addresses
                                      (glacial_lake alert) (message alert) ;;
                    ret (email_get_success email_result)
                  else ret false
                else ret false
            | None => ret false
            end) ;;
         (* Update alert status *)
         if sms_success || email_success then
           modify_alert (set_status SENT) ;;;
           modify_alert (set_sent_at (now_iso_sent w)) ;;;
           ret true
         else
           modify_alert (set_status FAILED) ;;;
           ret false
     end)
    (fun _ =>
       self <- get_self ;;
       if negb (is_online (offline_manager self)) then queue_offline
       else ret false).

Definition _send_message (w : World) (cs : list GLOFContact) (msg : string)
    (subject : string) : M bool :=
  try_except
    (self <- get_self ;;
     let phone_numbers := phones_of cs in
     let email_addresses := emails_of cs in
     sms_success <-
       (if is_online (offline_manager self) && nonempty phone_numbers then
          sms_result <- send_glof_sms (sms_provider self) w phone_numbers msg ;;
          ret (sms_get_success sms_result)
        else ret false) ;;
     email_success <-
       (match email_provider self with
        | Some provider =>
            if is_online (offline_manager self) && nonempty email_addresses then
              email_result <- send_glof_email provider w email_addresses
                                subject msg ;;
              ret (email_get_success email_result)
            else ret false
        | None => ret false
        end) ;;
     ret (sms_success || email_success))
    (fun _ => ret false).

(** [if not target_user_types: target_user_types = [...]] *)
Definition default_user_types (target_user_types : option (list UserType))
  : option (list UserType) :=
  if types_truthy target_user_types then target_user_types
  else Some all_user_types.

(** [additional_info] is truthy. *)
Definition info_truthy (additional_info : option string) : bool :=
  match additional_info with
  | Some info => PyStr.truthy info
  | None => false
  end.

Definition new_alert (w : World) (lake : string) (level : GLOFRiskLevel)
    (additional_info : option string) (cs : list GLOFContact) : GLOFAlert :=
  let ts := now_ist w in
  {| alert_id := "glof_" ++ PyStr.replace " " "_" lake ++ "_" ++ now_compact w;
     glacial_lake := lake;
     risk_level := level;
     timestamp := ts;
     message := format_glof_message (now_ist w) lake level (Some ts)
                  additional_info;
     contacts := map id cs;
     status := PENDING;
     created_at := now_iso_created w;
     sent_at := None;
     retry_count := 0%Z;
     additional_data :=
       if info_truthy additional_info then additional_info else None |}.

Definition send_glof_alert (w : World) (lake : string) (level : GLOFRiskLevel)
    (additional_info : option string)
    (target_user_types : option (list UserType)) : M bool :=
  try_except
    (self <- get_self ;;
     (* Default to all user types if none specified *)
     let target_user_types := default_user_types target_user_types in
     (* Get contacts for this lake *)
     let cs := get_contacts_for_lake (contact_manager self) lake
                 target_user_types in
     if negb (nonempty cs) then ret false
     else
       (* Create alert record *)
       put_alert (new_alert w lake level additional_info cs) ;;;
       (* Send alerts *)
       success <- _send_alert w cs ;;
       ret success)
    (fun _ => ret false).

Definition send_all_clear (w : World) (lake : string)
    (target_user_types : option (list UserType)) : M bool :=
  try_except
    (self <- get_self ;;
     let target_user_types := default_user_types target_user_types in
     let cs := get_contacts_for_lake (contact_manager self) lake
                 target_user_types in
     if negb (nonempty cs) then ret false
     else
       let msg := format_all_clear_message (now_ist w) lake None in
       (* Send via SMS and email *)
       success <- _send_message w cs msg ("GLOF All Clear - " ++ lake) ;;
       ret success)
    (fun _ => ret false).

(* ================================================================== *)
(** ** The [/alert] handler of [app.py] *)

(** [a > b] on numbers. *)
Definition Qgtb (a b : Q) : bool := negb (Qle_bool a b).

(** [CRITICAL if risk_score > 70 else HIGH if risk_score > 40 else MODERATE] *)
Definition risk_level_of_score (risk_score : Q) : GLOFRiskLevel :=
  if Qgtb risk_score (70 # 1) then CRITICAL
  else if Qgtb risk_score (40 # 1) then HIGH
  else MODERATE.

(* ================================================================== *)
(** ** Running a call and reading its log *)

(** A public method is entered with no alert record allocated. *)
Definition start (self : GLOFAlertSystem) : Mem :=
  {| m_self := self; m_alert := None |}.

Definition result_of {A} (out : res A * Mem * list Event) : res A :=
  fst (fst out).
Definition mem_of {A} (out : res A * Mem * list Event) : Mem :=
  snd (fst out).
Definition trace_of {A} (out : res A * Mem * list Event) : list Event :=
  snd out.

Definition run {A} (c : M A) (self : GLOFAlertSystem)
  : res A * Mem * list Event :=
  c (start self).

(** The system object and the alert record a call leaves behind. *)
Definition system_after {A} (out : res A * Mem * list Event) : GLOFAlertSystem :=
  m_self (mem_of out).
Definition alert_after {A} (out : res A * Mem * list Event) : option GLOFAlert :=
  m_alert (mem_of out).
Definition queue_of (self : GLOFAlertSystem) : list GLOFAlert :=
  offline_queue (offline_manager self).
Definition online (self : GLOFAlertSystem) : bool :=
  is_online (offline_manager self).

Definition is_sms_attempt (e : Event) : bool :=
  match e with EvHttpPost _ => true | _ => false end.

Definition is_email_attempt (e : Event) : bool :=
  match e with EvSmtp _ _ => true | EvEmailResult _ => true | _ => false end.

Definition is_probe (e : Event) : bool :=
  match e with EvProbe _ => true | _ => false end.

Definition is_sms_success (e : Event) : bool :=
  match e with EvSmsResult (Ret r) => sms_get_success r | _ => false end.

(** The SMS call ended without a success: it reported a failure or an
    exception escaped from it. *)
Definition is_sms_failure (e : Event) : bool :=
  match e with
  | EvSmsResult (Ret r) => negb (sms_get_success r)
  | EvSmsResult (Raise _) => true
  | _ => false
  end.

Definition is_sms_escape (e : Event) : bool :=
  match e with EvSmsResult (Raise _) => true | _ => false end.

Definition is_email_success (e : Event) : bool :=
  match e with EvEmailResult r => email_get_success r | _ => false end.

Definition is_email_failure (e : Event) : bool :=
  match e with EvEmailResult r => negb (email_get_success r) | _ => false end.

Definition sms_attempted (t : list Event) : bool := existsb is_sms_attempt t.
Definition email_attempted (t : list Event) : bool := existsb is_email_attempt t.
Definition sms_succeeded (t : list Event) : bool := existsb is_sms_success t.
Definition sms_failed (t : list Event) : bool := existsb is_sms_failure t.
Definition sms_escaped (t : list Event) : bool := existsb is_sms_escape t.
Definition email_succeeded (t : list Event) : bool := existsb is_email_success t.
Definition email_failed (t : list Event) : bool := existsb is_email_failure t.
Definition probed (t : list Event) : bool := existsb is_probe t.

(** The channels a call went through, in order, with what was handed to
    the SMS gateway and to whom mail was sent; the message text is left
    out. *)
Fixpoint channel_attempts (t : list Event) : list (string + SmtpOp) :=
  match t with
  | [] => []
  | EvHttpPost p :: t' => inl (p_numbers p) :: channel_attempts t'
  | EvSmtp op _ :: t' => inr op :: channel_attempts t'
  | _ :: t' => channel_attempts t'
  end.

Definition is_quit (e : Event) : bool :=
  match e with EvSmtp SmtpQuit _ => true | _ => false end.

Definition is_connect_ok (e : Event) : bool :=
  match e with EvSmtp SmtpConnect true => true | _ => false end.

(* ================================================================== *)
(** ** Runs of the alert system *)

(** [check_connectivity] called on the system's offline manager. *)
Definition check_connectivity_call (w : World) : M bool :=
  emit (EvProbe (requests_get_ok w)) ;;;
  on_offline_manager (check_connectivity w).

Inductive Op :=
| OpSendAlert (w : World) (lake : string) (level : GLOFRiskLevel)
              (additional_info : option string)
              (target_user_types : option (list UserType))
| OpSendAllClear (w : World) (lake : string)
                 (target_user_types : option (list UserType))
| OpGetQueuedAlerts
| OpCheckConnectivity (w : World).

Record Report := {
  rep_alert : option GLOFAlert;
  rep_trace : list Event
}.

Definition exec_op (op : Op) (self : GLOFAlertSystem)
  : GLOFAlertSystem * Report :=
  match op with
  | OpSendAlert w lake level info types =>
      let out := run (send_glof_alert w lake level info types) self in
      (system_after out,
       {| rep_alert := alert_after out; rep_trace := trace_of out |})
  | OpSendAllClear w lake types =>
      let out := run (send_all_clear w lake types) self in
      (system_after out,
       {| rep_alert := alert_after out; rep_trace := trace_of out |})
  | OpGetQueuedAlerts =>
      let out := run (on_offline_manager get_queued_alerts) self in
      (system_after out,
       {| rep_alert := alert_after out; rep_trace := trace_of out |})
  | OpCheckConnectivity w =>
      let out := run (check_connectivity_call w) self in
      (system_after out,
       {| rep_alert := alert_after out; rep_trace := trace_of out |})
  end.

Fixpoint exec_run (ops : list Op) (self : GLOFAlertSystem)
  : GLOFAlertSystem * list Report :=
  match ops with
  | [] => (self, [])
  | op :: rest =>
      let '(self1, rep) := exec_op op self in
      let '(self2, reps) := exec_run rest self1 in
      (self2, rep :: reps)
  end.

(** A connectivity check that finds the network down. *)
Definition failing_check (op : Op) : bool :=
  match op with
  | OpCheckConnectivity w => negb (requests_get_ok w)
  | _ => false
  end.

Definition marked_queued (rep : Report) : bool :=
  match rep_alert rep with
  | Some a => AlertStatus_eqb (status a) OFFLINE_QUEUED
  | None => false
  end.

(** Enqueueing a sequence of alerts, one [add_offline_alert] each. *)
Fixpoint enqueue_all (om : GLOFOfflineManager) (alerts : list GLOFAlert)
  : GLOFOfflineManager :=
  match alerts with
  | [] => om
  | a :: rest => enqueue_all (snd (add_offline_alert om a)) rest
  end.

(* ================================================================== *)
(** ** Concrete worlds and inputs used in examples *)

Definition sample_clock (post : SmsPayload -> res Response)
    (mail : SmtpOp -> bool) (net : bool) : World :=
  {| requests_post := post; smtp := mail; requests_get_ok := net;
     now_ist := "2024-01-01 10:00 IST"; now_compact := "20240101_100000";
     now_iso_created := "2024-01-01T10:00:00.000001";
     now_iso_sent := "2024-01-01T10:00:02.000001" |}.

Definition post_ok (_ : SmsPayload) : res Response :=
  Ret {| resp_ok := true; resp_json := Ret "{'return': true}" |}.
Definition post_unreachable (_ : SmsPayload) : res Response :=
  Raise (RequestException "connection refused").
Definition post_bad_json (_ : SmsPayload) : res Response :=
  Ret {| resp_ok := true; resp_json := Raise (OtherException "bad JSON") |}.

Definition mail_ok (_ : SmtpOp) : bool := true.
Definition mail_login_refused (op : SmtpOp) : bool :=
  match op with SmtpLogin => false | _ => true end.
Definition mail_down (_ : SmtpOp) : bool := false.

Definition sample_email_config : GLOFEmailProvider :=
  {| smtp_host := "smtp.gmail.com"; smtp_port := 587%Z;
     username := "your_email@gmail.com"; password := "your_app_password" |}.

Definition sample_system : GLOFAlertSystem :=
  GLOFAlertSystem_init "KEY" (Some sample_email_config).

Definition go_offline (self : GLOFAlertSystem) : GLOFAlertSystem :=
  with_offline_manager
    {| offline_queue := queue_of self; is_online := false |} self.

Definition world_ok : World := sample_clock post_ok mail_ok true.
Definition world_sms_down : World := sample_clock post_unreachable mail_ok true.
Definition world_all_down : World :=
  sample_clock post_unreachable mail_down false.
Definition world_login_refused : World :=
  sample_clock post_ok mail_login_refused true.
Definition world_sms_crash : World := sample_clock post_bad_json mail_ok true.

Definition offline_system : GLOFAlertSystem := go_offline sample_system.

(* ================================================================== *)
(** ** The wording of the specification, for comparison *)

(** Normalisation as the specification words it: strip a leading
    country-code prefix, then the dashes and the spaces. *)
Definition strip_leading_country_code (num : string) : string :=
  if String.prefix "+91" num
  then String.substring 3 (String.length num - 3) num
  else num.

Definition normalize_by_spec (num : string) : string :=
  PyStr.replace " " "" (PyStr.replace "-" "" (strip_leading_country_code num)).

(** The shape of a phone number as far as the plus sign goes: a '+' stands
    nowhere but at the front. *)
Definition leading_plus_only (num : string) : bool :=
  match num with
  | EmptyString => true
  | String _ rest => negb (PyStr.mem_char "+" rest)
  end.

(* ================================================================== *)
(** ** The outcomes of a dispatch *)

Definition is_smtp (e : Event) : bool :=
  match e with EvSmtp _ _ => true | _ => false end.

(** The system after [add_offline_alert(alert)]. *)
Definition enqueue (self : GLOFAlertSystem) (alert : GLOFAlert)
  : GLOFAlertSystem :=
  with_offline_manager (snd (add_offline_alert (offline_manager self) alert))
    self.

(** The four ways [_send_alert] can end on alert [a], with what its log
    then says: queued offline, sent, failed, or left as it was because an
    exception escaped from the SMS call while online. *)
Inductive Dispatched (self : GLOFAlertSystem) (w : World) (a : GLOFAlert)
  : bool -> GLOFAlertSystem -> GLOFAlert -> list Event -> Prop :=
| Dispatched_queued (t : list Event) :
    online self = false ->
    sms_attempted t = true ->
    sms_failed t = true ->
    sms_succeeded t = false ->
    email_attempted t = false ->
    probed t = false ->
    Dispatched self w a true
      (enqueue self (set_status OFFLINE_QUEUED a))
      (set_status OFFLINE_QUEUED a) t
| Dispatched_sent (t : list Event) :
    sms_succeeded t || email_succeeded t = true ->
    sms_escaped t = false ->
    (sms_failed t = true -> online self = true) ->
    (sms_failed t = true -> sms_succeeded t = false) ->
    (email_failed t = true -> email_succeeded t = false) ->
    probed t = false ->
    Dispatched self w a true self
      (set_sent_at (now_iso_sent w) (set_status SENT a)) t
| Dispatched_failed (t : list Event) :
    sms_succeeded t = false ->
    email_succeeded t = false ->
    sms_escaped t = false ->
    (sms_failed t = true -> online self = true) ->
    probed t = false ->
    Dispatched self w a false self (set_status FAILED a) t
| Dispatched_escaped (t : list Event) :
    online self = true ->
    sms_attempted t = true ->
    sms_escaped t = true ->
    sms_succeeded t = false ->
    email_attempted t = false ->
    probed t = false ->
    Dispatched self w a false self a t.

(** The state in which no alert can be queued: flagged online, nothing in
    the queue. *)
Definition online_and_empty (self : GLOFAlertSystem) : Prop :=
  online self = true /\ queue_of self = [].


(* ================================================================== *)
(** ** Reading more off a log *)

Definition is_connect (e : Event) : bool :=
  match e with EvSmtp SmtpConnect _ => true | _ => false end.

Definition is_sendmail (e : Event) : bool :=
  match e with EvSmtp (SmtpSendmail _) _ => true | _ => false end.

Definition is_sms_event (e : Event) : bool :=
  match e with EvHttpPost _ | EvSmsResult _ => true | _ => false end.

Definition count_events (p : Event -> bool) (t : list Event) : nat :=
  List.length (filter p t).

(** The [sendmail] calls of a session that serves [recipients]. *)
Definition sendmail_events (w : World) (recipients : list string)
  : list Event :=
  map (fun r => EvSmtp (SmtpSendmail r) (smtp w (SmtpSendmail r))) recipients.

Definition accepted (w : World) (recipient : string) : bool :=
  smtp w (SmtpSendmail recipient).

Definition refused (w : World) (recipient : string) : bool :=
  negb (smtp w (SmtpSendmail recipient)).

(** The steps that open a session all succeed. *)
Definition setup_ok (w : World) : bool :=
  smtp w SmtpConnect && smtp w SmtpStartTls && smtp w SmtpLogin.

(** The fields of an alert record that a dispatch must leave alone. *)
Definition same_content (a b : GLOFAlert) : Prop :=
  alert_id a = alert_id b
  /\ glacial_lake a = glacial_lake b
  /\ risk_level a = risk_level b
  /\ timestamp a = timestamp b
  /\ message a = message b
  /\ contacts a = contacts b
  /\ created_at a = created_at b
  /\ retry_count a = retry_count b
  /\ additional_data a = additional_data b.

Definition is_queued_record (a : GLOFAlert) : bool :=
  AlertStatus_eqb (status a) OFFLINE_QUEUED
  && match sent_at a with None => true | Some _ => false end.

(* ================================================================== *)
(** ** Sequences of calls on the offline manager *)

Inductive OmOp :=
| OmAdd (alert : GLOFAlert)
| OmCheck (w : World).

Definition om_step (om : GLOFOfflineManager) (op : OmOp) : GLOFOfflineManager :=
  match op with
  | OmAdd alert => snd (add_offline_alert om alert)
  | OmCheck w => snd (check_connectivity w om)
  end.

Definition om_run (ops : list OmOp) (om : GLOFOfflineManager)
  : GLOFOfflineManager :=
  fold_left om_step ops om.

(** The alerts handed to [add_offline_alert], in call order. *)
Fixpoint added (ops : list OmOp) : list GLOFAlert :=
  match ops with
  | [] => []
  | OmAdd alert :: rest => alert :: added rest
  | OmCheck _ :: rest => added rest
  end.

(** What the most recent reachability probe found, [flag] if there was
    none. *)
Fixpoint last_probe (ops : list OmOp) (flag : bool) : bool :=
  match ops with
  | [] => flag
  | OmAdd _ :: rest => last_probe rest flag
  | OmCheck w :: rest => last_probe rest (requests_get_ok w)
  end.

(** A contact record with nothing in it, the default of list accesses. *)
Definition blank_contact : GLOFContact :=
  {| name := ""; phone := ""; email := ""; user_type := LOCAL; region := "";
     lake_area := ""; id := None; active := false;
     contact_created_at := None |}.

(** A system whose only contact can be reached by neither channel. *)
Definition unreachable_system : GLOFAlertSystem :=
  {| contact_manager :=
       {| cm_contacts :=
            [ {| name := "Watch post"; phone := ""; email := "";
                 user_type := LOCAL; region := "NORTH_REGION";
                 lake_area := "ALL"; id := Some "watch_post";
                 active := true; contact_created_at := None |} ] |};
     sms_provider := Fast2SMSProvider_init "KEY" "GLOF";
     email_provider := Some sample_email_config;
     offline_manager := GLOFOfflineManager_init |}.

(* ================================================================== *)
(** ** [app.py]: the routes *)

Module App.

Definition OPENWEATHER_KEY : string := "ec8ecd486662eb30efb5e29afc7851c5".
Definition FAST2SMS_API_KEY : string :=
  "zgl87ILMxnj9diyV3AuGWEcRCZwD06JsYK4Nt2eQ5ObSTmakqvPSbaNKywjDUhVIR9X2m3Z4kWJuiOEc".

(** A JSON object with text values, or JSON text passed through as it
    came. *)
Inductive Body :=
| JsonObject (fields : list (string * string))
| JsonText (text : string).

(** What a route answers: the status code and the body. *)
Record Reply := { code : nat; body : Body }.

(** [d.get(key)] on a dictionary literal. *)
Definition dict_get {V : Type} (d : list (string * V)) (key : string)
  : option V :=
  option_map snd (find (fun kv => fst kv =? key) d).
Definition TRANSLATIONS : list (string * list (string * string)) :=
  [ ("en",
     [ ("dashboard", "Dashboard");
       ("lake_database", "Lake Database");
       ("ml_predictions", "ML & Predictions");
       ("risk_assessment", "Risk Assessment");
       ("safety", "Safety Precautions") ]);
    ("hi",
     [ ("dashboard", "डैशबोर्ड");
       ("lake_database", "झील डेटाबेस");
       ("ml_predictions", "एमएल और भविष्यवाणियाँ");
       ("risk_assessment", "जोखिम मूल्यांकन");
       ("safety", "सुरक्षा सावधानियाँ") ]);
    ("mr",
     [ ("dashboard", "डॅशबोर्ड");
       ("lake_database", "तलाव डेटाबेस");
       ("ml_predictions", "एमएल आणि अंदाज");
       ("risk_assessment", "धोका मूल्यांकन");
       ("safety", "सुरक्षा खबरदारी") ]);
    ("gu",
     [ ("dashboard", "ડેશબોર્ડ");
       ("lake_database", "સરોવર ડેટાબેઝ");
       ("ml_predictions", "એમએલ અને આગાહીઓ");
       ("risk_assessment", "જોખમ મૂલ્યાંકન");
       ("safety", "સલામતી સાવચેતીઓ") ]) ].

(** [TRANSLATIONS.get(lang, TRANSLATIONS['en'])]; the default is evaluated
    first and would raise [KeyError] without an English table. *)
Definition get_translations (lang : string) : res (list (string * string)) :=
  match dict_get TRANSLATIONS "en" with
  | None => Raise (OtherException "KeyError: 'en'")
  | Some english =>
      Ret (match dict_get TRANSLATIONS lang with
           | Some table => table
           | None => english
           end)
  end.

Definition weather_url (lat lon : string) : string :=
  "https://api.openweathermap.org/data/2.5/weather?lat=" ++ lat
  ++ "&lon=" ++ lon ++ "&units=metric&appid=" ++ OPENWEATHER_KEY.

Definition missing_coordinates : Reply :=
  {| code := 400; body := JsonObject [("error", "Missing coordinates")] |}.

(** [get_weather]: [lat] and [lon] are [request.args.get(...)], [None]
    when the query has no such argument; [requests_get] is the outside
    world's answer to [requests.get(url)].  The second component lists the
    URLs requested. *)
Definition get_weather (requests_get : string -> res Response)
    (lat lon : option string) : Reply * list string :=
  match lat, lon with
  | Some la, Some lo =>
      if negb (PyStr.truthy la) || negb (PyStr.truthy lo)
      then (missing_coordinates, [])
      else
        let url := weather_url la lo in
        match requests_get url with
        | Ret response =>
            match resp_json response with
            | Ret j => ({| code := 200; body := JsonText j |}, [url])
            | Raise e =>
                ({| code := 500; body := JsonObject [("error", exn_str e)] |},
                 [url])
            end
        | Raise e =>
            ({| code := 500; body := JsonObject [("error", exn_str e)] |},
             [url])
        end
  | _, _ => (missing_coordinates, [])
  end.

(** The body of a POST to [/alert], for bodies that are JSON objects in
    which [lake_name], when present, is a string and [risk_score], when
    present, is a number; the number comes with the text that formatting
    it in an f-string gives. *)
Record AlertData := {
  lake_name : option string;
  risk_score : option (Q * string)
}.

Definition email_config : GLOFEmailProvider :=
  {| smtp_host := "smtp.gmail.com"; smtp_port := 587%Z;
     username := "your_email@gmail.com"; password := "your_app_password" |}.

(** [data.get("lake_name", "Unknown Lake")] *)
Definition lake_of (data : AlertData) : string :=
  match lake_name data with Some l => l | None => "Unknown Lake" end.

(** [data.get("risk_score", 0)] *)
Definition score_of (data : AlertData) : Q * string :=
  match risk_score data with Some s => s | None => ((0 # 1)%Q, "0") end.

(** The alert system the handler builds for the request, and the dispatch
    it asks of it. *)
Definition glof_system : GLOFAlertSystem :=
  GLOFAlertSystem_init FAST2SMS_API_KEY (Some email_config).

Definition alert_dispatch (w : World) (data : AlertData)
  : res bool * Mem * list Event :=
  let additional_info :=
    ("Automated alert: Risk score " ++ snd (score_of data) ++ "%")%string in
  run (send_glof_alert w (lake_of data)
         (risk_level_of_score (fst (score_of data)))
         (Some additional_info) None)
      glof_system.

(** The [/alert] handler; an exception leaving it would be answered by the
    framework with status 500. *)
Definition send_alert (w : World) (data : AlertData) : Reply :=
  match result_of (alert_dispatch w data) with
  | Ret success =>
      {| code := 200;
         body := JsonObject
                   [("status", if success then "success" else "failed")] |}
  | Raise e =>
      {| code := 500; body := JsonObject [("error", exn_str e)] |}
  end.

End App.
(* ================================================================== *)
(** * Theorems *)

(** ** The channels, seen from the dispatcher *)

Lemma send_glof_sms_run (sp : Fast2SMSProvider) (w : World)
    (phone_numbers : list string) (msg : string) :
  exists r, forall m,
    send_glof_sms sp w phone_numbers msg m
    = (r, m, [EvHttpPost (sms_payload sp phone_numbers msg); EvSmsResult r]).
Proof.
  unfold send_glof_sms, send_glof_sms_try, try_except, bind, emit, lift_res,
    raise_for_status.
  destruct (requests_post w (sms_payload sp phone_numbers msg))
    as [response | [err | err]]; cbn.
  - destruct (resp_ok response); cbn.
    + destruct (resp_json response) as [j | [err | err]]; cbn;
        eexists; intros m; reflexivity.
    + eexists; intros m; reflexivity.
  - eexists; intros m; reflexivity.
  - eexists; intros m; reflexivity.
Qed.

Lemma send_each_run (w : World) (recipients : list string) :
  forall failed sends, exists st t,
    forallb is_smtp t = true /\
    forall m, send_each w recipients failed sends m = (Ret st, m, t).
Proof.
  induction recipients as [| r rest IH]; intros failed sends; cbn.
  - exists (failed, sends), []. split; [reflexivity | intros m; reflexivity].
  - unfold bind, try_except, smtp_call, emit. cbn.
    destruct (smtp w (SmtpSendmail r)); cbn.
    + destruct (IH failed (S sends)) as (st & t & Ht & Hrun).
      exists st, (EvSmtp (SmtpSendmail r) true :: t). split.
      * cbn. exact Ht.
      * intros m. rewrite Hrun. reflexivity.
    + destruct (IH (failed ++ [r]) sends) as (st & t & Ht & Hrun).
      exists st, (EvSmtp (SmtpSendmail r) false :: t). split.
      * cbn. exact Ht.
      * intros m. rewrite Hrun. reflexivity.
Qed.

Lemma send_glof_email_run (w : World) (recipients : list string) :
  exists r t,
    forallb is_smtp t = true /\ t <> [] /\
    forall provider lake msg m,
      send_glof_email provider w recipients lake msg m
      = (Ret r, m, t ++ [EvEmailResult r]).
Proof.
  destruct (send_each_run w recipients [] 0) as (st & t & Ht & Hrun).
  unfold send_glof_email, send_glof_email_try, try_except, bind, smtp_call,
    emit.
  destruct (smtp w SmtpConnect) eqn:Hc; cbn.
  2:{ eexists; exists [EvSmtp SmtpConnect false].
      split; [reflexivity | split]; [discriminate | intros; reflexivity]. }
  destruct (smtp w SmtpStartTls) eqn:Hs; cbn.
  2:{ eexists; exists [EvSmtp SmtpConnect true; EvSmtp SmtpStartTls false].
      split; [reflexivity | split]; [discriminate | intros; reflexivity]. }
  destruct (smtp w SmtpLogin) eqn:Hl; cbn.
  2:{ eexists;
      exists [EvSmtp SmtpConnect true; EvSmtp SmtpStartTls true;
              EvSmtp SmtpLogin false].
      split; [reflexivity | split]; [discriminate | intros; reflexivity]. }
  destruct (smtp w SmtpQuit) eqn:Hq; cbn.
  - eexists;
      exists ([EvSmtp SmtpConnect true; EvSmtp SmtpStartTls true;
               EvSmtp SmtpLogin true] ++ t ++ [EvSmtp SmtpQuit true]).
    split; [| split].
    + cbn. rewrite forallb_app, Ht. reflexivity.
    + discriminate.
    + intros. rewrite Hrun. cbn.
      rewrite <- !app_assoc. reflexivity.
  - eexists;
      exists ([EvSmtp SmtpConnect true; EvSmtp SmtpStartTls true;
               EvSmtp SmtpLogin true] ++ t ++ [EvSmtp SmtpQuit false]).
    split; [| split].
    + cbn. rewrite forallb_app, Ht. reflexivity.
    + discriminate.
    + intros. rewrite Hrun. cbn.
      rewrite <- !app_assoc. reflexivity.
Qed.

(** ** Facts about logs *)

Lemma existsb_none {A} (p q : A -> bool) (t : list A) :
  (forall e, p e = true -> q e = false) ->
  forallb p t = true -> existsb q t = false.
Proof.
  intros Hpq. induction t as [| e t IH]; cbn; [reflexivity |].
  intros H. apply andb_true_iff in H as [He Ht].
  rewrite (Hpq e He), (IH Ht). reflexivity.
Qed.

Lemma smtp_no_sms_attempt t : forallb is_smtp t = true -> existsb is_sms_attempt t = false.
Proof. apply existsb_none. intros []; cbn; congruence. Qed.

Lemma smtp_no_sms_success t : forallb is_smtp t = true -> existsb is_sms_success t = false.
Proof. apply existsb_none. intros []; cbn; congruence. Qed.

Lemma smtp_no_sms_failure t : forallb is_smtp t = true -> existsb is_sms_failure t = false.
Proof. apply existsb_none. intros []; cbn; congruence. Qed.

Lemma smtp_no_sms_escape t : forallb is_smtp t = true -> existsb is_sms_escape t = false.
Proof. apply existsb_none. intros []; cbn; congruence. Qed.

Lemma smtp_no_email_success t : forallb is_smtp t = true -> existsb is_email_success t = false.
Proof. apply existsb_none. intros []; cbn; congruence. Qed.

Lemma smtp_no_email_failure t : forallb is_smtp t = true -> existsb is_email_failure t = false.
Proof. apply existsb_none. intros []; cbn; congruence. Qed.

Lemma smtp_no_probe t : forallb is_smtp t = true -> existsb is_probe t = false.
Proof. apply existsb_none. intros []; cbn; congruence. Qed.

Lemma email_success_attempted t :
  email_attempted t = false -> email_succeeded t = false.
Proof.
  unfold email_attempted, email_succeeded.
  induction t as [| e t IH]; cbn; [reflexivity |].
  intros H. apply orb_false_iff in H as [He Ht].
  rewrite (IH Ht). destruct e; cbn in *; congruence.
Qed.

(** Splits the predicates over a log made of an SMS part and a mail
    session, and evaluates them. *)
Ltac log_facts Ht :=
  unfold sms_attempted, sms_succeeded, sms_failed, sms_escaped,
    email_attempted, email_succeeded, email_failed, probed in *;
  cbn;
  repeat rewrite existsb_app;
  try rewrite (smtp_no_sms_attempt _ Ht);
  try rewrite (smtp_no_sms_success _ Ht);
  try rewrite (smtp_no_sms_failure _ Ht);
  try rewrite (smtp_no_sms_escape _ Ht);
  try rewrite (smtp_no_email_success _ Ht);
  try rewrite (smtp_no_email_failure _ Ht);
  try rewrite (smtp_no_probe _ Ht);
  cbn.

Ltac close_log Ht :=
  log_facts Ht;
  repeat match goal with
         | H : _ = _ |- _ => rewrite H
         end;
  cbn; try reflexivity; try discriminate; try (intros; reflexivity);
  try (intros; discriminate).

#[local] Arguments send_glof_sms : simpl never.
#[local] Arguments send_glof_email : simpl never.

Lemma _send_alert_cases (self : GLOFAlertSystem) (w : World)
    (cs : list GLOFContact) (a : GLOFAlert) :
  exists b self' a' t,
    _send_alert w cs {| m_self := self; m_alert := Some a |}
    = (Ret b, {| m_self := self'; m_alert := Some a' |}, t)
    /\ Dispatched self w a b self' a' t.
Proof.
  unfold _send_alert, try_except, bind, get_alert, get_self, queue_offline,
    modify_alert, on_offline_manager, put_alert, put_offline_manager;
    cbn.
  destruct (send_glof_email_run w (emails_of cs))
    as (er & et & Het & Hne & Hmail).
  destruct (phones_of cs) as [| ph phs]; cbn;
    [| destruct (send_glof_sms_run (sms_provider self) w (ph :: phs)
                   (message a)) as [r Hr];
       rewrite Hr; destruct r as [[j | err] | e]; cbn ];
    destruct (is_online (offline_manager self)) eqn:Hon; cbn;
    destruct (email_provider self) as [provider |]; cbn;
    destruct (emails_of cs) as [| em ems]; cbn;
    rewrite ?Hmail; cbn;
    destruct (email_get_success er) eqn:Her; cbn;
    do 4 eexists; (split; [reflexivity |]);
    first
      [ solve [apply Dispatched_queued; unfold online; close_log Het]
      | solve [apply Dispatched_sent; unfold online; close_log Het]
      | solve [apply Dispatched_failed; unfold online; close_log Het]
      | solve [apply Dispatched_escaped; unfold online; close_log Het] ].
Qed.

Lemma email_failure_attempted t :
  email_attempted t = false -> email_failed t = false.
Proof.
  unfold email_attempted, email_failed.
  induction t as [| e t IH]; cbn; [reflexivity |].
  intros H. apply orb_false_iff in H as [He Ht].
  rewrite (IH Ht). destruct e; cbn in *; congruence.
Qed.

(** ** [send_glof_alert]: either no contact matches, or the freshly
    allocated record goes through [_send_alert]. *)

Lemma send_glof_alert_no_contacts (self : GLOFAlertSystem) (w : World)
    (lake : string) (level : GLOFRiskLevel) (info : option string)
    (types : option (list UserType)) :
  get_contacts_for_lake (contact_manager self) lake (default_user_types types)
  = [] ->
  run (send_glof_alert w lake level info types) self
  = (Ret false, start self, []).
Proof.
  intros Hcs. unfold run, send_glof_alert, try_except, bind, get_self. cbn.
  rewrite Hcs. reflexivity.
Qed.

Lemma send_glof_alert_cases (self : GLOFAlertSystem) (w : World)
    (lake : string) (level : GLOFRiskLevel) (info : option string)
    (types : option (list UserType)) :
  let cs := get_contacts_for_lake (contact_manager self) lake
              (default_user_types types) in
  (cs = [] /\
   run (send_glof_alert w lake level info types) self
   = (Ret false, start self, []))
  \/
  (cs <> [] /\
   exists b self' a' t,
     run (send_glof_alert w lake level info types) self
     = (Ret b, {| m_self := self'; m_alert := Some a' |}, t)
     /\ Dispatched self w (new_alert w lake level info cs) b self' a' t).
Proof.
  intros cs.
  destruct cs as [| c cs'] eqn:Hcs.
  - left. split; [reflexivity |].
    apply send_glof_alert_no_contacts. exact Hcs.
  - right. split; [discriminate |].
    destruct (_send_alert_cases self w (c :: cs')
                (new_alert w lake level info (c :: cs')))
      as (b & self' & a' & t & Hrun & Hd).
    exists b, self', a', t. split; [| exact Hd].
    unfold run, send_glof_alert, try_except, bind, get_self, put_alert, start.
    cbn. fold cs. rewrite Hcs. cbn. rewrite Hrun. cbn.
    rewrite app_nil_r. reflexivity.
Qed.

(* ================================================================== *)
(** ** Alert dispatch *)

(** C1.  Whenever [send_glof_alert] attempts at least one channel, an alert
    record exists and: if the SMS call or the email call succeeded, the
    record ends [SENT] and the call returns [True]; if connectivity is
    flagged online and no attempted channel succeeded (none ended by an
    escaping exception), and in particular if both channels were attempted
    and both failed, the record ends [FAILED] and the call returns [False];
    [sent_at] is set exactly when the status is [SENT]. *)
Theorem send_alert_or_semantics (self : GLOFAlertSystem) (w : World)
    (lake : string) (level : GLOFRiskLevel) (info : option string)
    (types : option (list UserType)) :
  let out := run (send_glof_alert w lake level info types) self in
  sms_attempted (trace_of out) || email_attempted (trace_of out) = true ->
  exists a,
    alert_after out = Some a
    /\ (sms_succeeded (trace_of out) || email_succeeded (trace_of out) = true ->
        status a = SENT /\ result_of out = Ret true)
    /\ (online self = true ->
        sms_succeeded (trace_of out) = false ->
        email_succeeded (trace_of out) = false ->
        sms_escaped (trace_of out) = false ->
        status a = FAILED /\ result_of out = Ret false)
    /\ (online self = true ->
        sms_failed (trace_of out) = true ->
        email_failed (trace_of out) = true ->
        status a = FAILED /\ result_of out = Ret false)
    /\ (sent_at a <> None <-> status a = SENT).
Proof.
  intros out.
  destruct (send_glof_alert_cases self w lake level info types)
    as [[_ Hrun] | [_ (b & self' & a' & t & Hrun & Hd)]];
    subst out; rewrite Hrun;
    unfold trace_of, alert_after, mem_of, result_of; cbn [fst snd m_alert].
  - discriminate.
  - intros Hatt. exists a'. split; [reflexivity |].
    inversion Hd as [t0 Hoff Hsa Hsf Hss Hea Hp
                    | t0 Hok Hesc Hon Hsx Hex Hp
                    | t0 Hss Hes Hesc Hon Hp
                    | t0 Hon Hsa Hesc Hss Hea Hp]; subst;
      cbn [sent_at status set_status set_sent_at new_alert].
    + (* queued: only while offline, without any success *)
      pose proof (email_success_attempted _ Hea) as Hes.
      unfold online in *. split; [| split; [| split]].
      * intros H. rewrite Hss, Hes in H. discriminate.
      * intros H. congruence.
      * intros H. congruence.
      * split; intros H; [exfalso; apply H; reflexivity | discriminate].
    + (* sent *)
      split; [| split; [| split]].
      * intros _. split; reflexivity.
      * intros _ Hs He _. rewrite Hs, He in Hok. discriminate.
      * intros _ Hs He. rewrite (Hsx Hs), (Hex He) in Hok. discriminate.
      * split; intros H; [reflexivity | discriminate].
    + (* failed *)
      split; [| split; [| split]].
      * intros H. rewrite Hss, Hes in H. discriminate.
      * intros. split; reflexivity.
      * intros. split; reflexivity.
      * split; intros H; [exfalso; apply H; reflexivity | discriminate].
    + (* an exception escaped from the SMS call *)
      pose proof (email_success_attempted _ Hea) as Hes.
      pose proof (email_failure_attempted _ Hea) as Hef.
      split; [| split; [| split]].
      * intros H. rewrite Hss, Hes in H. discriminate.
      * intros _ _ _ H. rewrite Hesc in H. discriminate.
      * intros _ _ H. rewrite Hef in H. discriminate.
      * split; intros H; [exfalso; apply H; reflexivity | discriminate].
Qed.

(** C1 at two concrete dispatches of the predefined contacts while online:
    the SMS gateway is unreachable and mail goes through (the record ends
    [SENT]); the gateway is unreachable and the SMTP login is refused (the
    record ends [FAILED]). *)
Lemma send_alert_or_semantics_witness :
  (exists a,
     alert_after (run (send_glof_alert world_sms_down "Pangong Tso" CRITICAL
                         None None) sample_system) = Some a
     /\ status a = SENT /\ sent_at a <> None)
  /\ result_of (run (send_glof_alert world_sms_down "Pangong Tso" CRITICAL
                       None None) sample_system) = Ret true
  /\ (exists a,
        alert_after (run (send_glof_alert
                            (sample_clock post_unreachable mail_login_refused
                               true)
                            "Pangong Tso" CRITICAL None None) sample_system)
        = Some a
        /\ status a = FAILED /\ sent_at a = None)
  /\ result_of (run (send_glof_alert
                       (sample_clock post_unreachable mail_login_refused true)
                       "Pangong Tso" CRITICAL None None) sample_system)
     = Ret false.
Proof.
  destruct (send_alert_or_semantics sample_system world_sms_down "Pangong Tso"
              CRITICAL None None eq_refl)
    as (a & Ha & Hsent & _ & _ & Hat).
  destruct (Hsent eq_refl) as [Hst Hres].
  destruct (send_alert_or_semantics sample_system
              (sample_clock post_unreachable mail_login_refused true)
              "Pangong Tso" CRITICAL None None eq_refl)
    as (a2 & Ha2 & _ & _ & Hfail & Hat2).
  destruct (Hfail eq_refl eq_refl eq_refl) as [Hst2 Hres2].
  split; [| split; [| split]].
  - exists a. split; [exact Ha | split; [exact Hst |]].
    apply Hat. exact Hst.
  - exact Hres.
  - exists a2. split; [exact Ha2 | split; [exact Hst2 |]].
    destruct (sent_at a2) eqn:E; [| reflexivity].
    assert (H : status a2 = SENT) by (apply Hat2; discriminate).
    rewrite Hst2 in H. discriminate.
  - exact Hres2.
Defined.

(** Outside C1: when an exception other than a [RequestException] escapes
    from the SMS call while online, no email is attempted, the call returns
    [False] and the record keeps the status it was created with. *)
Lemma sms_escape_online_stays_pending :
  result_of (run (send_glof_alert world_sms_crash "Pangong Tso" CRITICAL None
                    None) sample_system) = Ret false
  /\ option_map status
       (alert_after (run (send_glof_alert world_sms_crash "Pangong Tso"
                            CRITICAL None None) sample_system))
     = Some PENDING
  /\ email_attempted
       (trace_of (run (send_glof_alert world_sms_crash "Pangong Tso" CRITICAL
                         None None) sample_system)) = false.
Proof. repeat split. Qed.

(** C2.  When the SMS call of a dispatch fails (it reports a failure or an
    exception escapes from it) while the connectivity flag is offline, the
    alert record ends [OFFLINE_QUEUED], the offline queue grows by exactly
    that record, no email is attempted and [send_glof_alert] returns
    [True]. *)
Theorem sms_failure_offline_queues (self : GLOFAlertSystem) (w : World)
    (lake : string) (level : GLOFRiskLevel) (info : option string)
    (types : option (list UserType)) :
  let out := run (send_glof_alert w lake level info types) self in
  online self = false ->
  sms_failed (trace_of out) = true ->
  exists a,
    alert_after out = Some a
    /\ status a = OFFLINE_QUEUED
    /\ queue_of (system_after out) = queue_of self ++ [a]
    /\ email_attempted (trace_of out) = false
    /\ result_of out = Ret true.
Proof.
  intros out Hoff.
  destruct (send_glof_alert_cases self w lake level info types)
    as [[_ Hrun] | [_ (b & self' & a' & t & Hrun & Hd)]];
    subst out; rewrite Hrun;
    unfold trace_of, alert_after, system_after, mem_of, result_of;
    cbn [fst snd m_alert m_self].
  - discriminate.
  - intros Hfail.
    inversion Hd as [t0 _ Hsa Hsf Hss Hea Hp
                    | t0 Hok Hesc Hon Hsx Hex Hp
                    | t0 Hss Hes Hesc Hon Hp
                    | t0 Hon Hsa Hesc Hss Hea Hp]; subst;
      try (rewrite (Hon Hfail) in Hoff; discriminate);
      try (rewrite Hon in Hoff; discriminate).
    eexists. split; [reflexivity |].
    split; [reflexivity |]. split; [reflexivity |].
    split; [exact Hea | reflexivity].
Qed.

(** C2 on the predefined contacts, flagged offline, with the gateway
    unreachable. *)
Lemma sms_failure_offline_queues_witness :
  exists a,
    alert_after (run (send_glof_alert world_all_down "Pangong Tso" HIGH None
                        None) offline_system) = Some a
    /\ status a = OFFLINE_QUEUED
    /\ queue_of (system_after
                   (run (send_glof_alert world_all_down "Pangong Tso" HIGH
                           None None) offline_system)) = [a]
    /\ result_of (run (send_glof_alert world_all_down "Pangong Tso" HIGH None
                         None) offline_system) = Ret true.
Proof.
  destruct (sms_failure_offline_queues offline_system world_all_down
              "Pangong Tso" HIGH None None eq_refl eq_refl)
    as (a & Ha & Hst & Hq & _ & Hres).
  exists a. split; [exact Ha | split; [exact Hst | split; [| exact Hres]]].
  exact Hq.
Defined.

(** C5.  When the contact lookup of [send_glof_alert] (with the given role
    set, or the default one when none is given) finds no active contact, the
    call returns [False], leaves no event at all (neither channel is
    invoked), allocates no alert record and leaves the system, hence the
    offline queue, as it was. *)
Theorem no_contacts_no_dispatch (self : GLOFAlertSystem) (w : World)
    (lake : string) (level : GLOFRiskLevel) (info : option string)
    (types : option (list UserType)) :
  get_contacts_for_lake (contact_manager self) lake (default_user_types types)
  = [] ->
  let out := run (send_glof_alert w lake level info types) self in
  result_of out = Ret false
  /\ trace_of out = []
  /\ alert_after out = None
  /\ system_after out = self.
Proof.
  intros Hcs out. subst out.
  rewrite (send_glof_alert_no_contacts self w lake level info types Hcs).
  repeat split.
Qed.

(** C5 for the predefined contacts, none of which has the role LOCAL. *)
Lemma no_contacts_no_dispatch_witness :
  result_of (run (send_glof_alert world_ok "Pangong Tso" CRITICAL None
                    (Some [LOCAL])) sample_system) = Ret false
  /\ trace_of (run (send_glof_alert world_ok "Pangong Tso" CRITICAL None
                      (Some [LOCAL])) sample_system) = []
  /\ alert_after (run (send_glof_alert world_ok "Pangong Tso" CRITICAL None
                         (Some [LOCAL])) sample_system) = None
  /\ system_after (run (send_glof_alert world_ok "Pangong Tso" CRITICAL None
                          (Some [LOCAL])) sample_system) = sample_system.
Proof.
  apply (no_contacts_no_dispatch sample_system world_ok "Pangong Tso" CRITICAL
           None (Some [LOCAL])).
  reflexivity.
Defined.

(* ================================================================== *)
(** ** All-clear dispatch *)

Lemma _send_message_offline (w : World) (cs : list GLOFContact)
    (msg subject : string) (m : Mem) :
  online (m_self m) = false ->
  _send_message w cs msg subject m = (Ret false, m, []).
Proof.
  unfold online. intros Hoff.
  unfold _send_message, try_except, bind, get_self. cbn.
  rewrite Hoff. cbn.
  destruct (email_provider (m_self m)); reflexivity.
Qed.

Lemma _send_message_run (w : World) (cs : list GLOFContact)
    (msg subject : string) (m : Mem) :
  exists b t,
    _send_message w cs msg subject m = (Ret b, m, t) /\ probed t = false.
Proof.
  unfold _send_message, try_except, bind, get_self. cbn.
  destruct (send_glof_email_run w (emails_of cs))
    as (er & et & Het & Hne & Hmail).
  destruct (send_glof_sms_run (sms_provider (m_self m)) w (phones_of cs) msg)
    as [r Hr].
  destruct (is_online (offline_manager (m_self m))); cbn;
    destruct (phones_of cs) as [| ph phs]; cbn;
    rewrite ?Hr; try destruct r as [[j | err] | e]; cbn;
    destruct (email_provider (m_self m)) as [provider |]; cbn;
    destruct (emails_of cs) as [| em ems]; cbn;
    rewrite ?Hmail; cbn;
    do 2 eexists; (split; [reflexivity |]);
    close_log Het.
Qed.

Lemma send_all_clear_run (self : GLOFAlertSystem) (w : World) (lake : string)
    (types : option (list UserType)) :
  exists b t,
    run (send_all_clear w lake types) self = (Ret b, start self, t)
    /\ probed t = false.
Proof.
  unfold run, send_all_clear, try_except, bind, get_self.
  cbn -[_send_message append format_all_clear_message].
  destruct (get_contacts_for_lake (contact_manager self) lake
              (default_user_types types)) as [| c cs];
    cbn -[_send_message append format_all_clear_message].
  - exists false, []. split; reflexivity.
  - destruct (_send_message_run w (c :: cs)
                (format_all_clear_message (now_ist w) lake None)
                ("GLOF All Clear - " ++ lake) (start self))
      as (b & t & Hrun & Hp).
    exists b, t. rewrite Hrun. cbn. rewrite app_nil_r. split; [reflexivity |].
    exact Hp.
Qed.

(** While online, the two dispatchers send the same message through the
    same channels, in the same order, with the same results. *)
Lemma dispatchers_agree_online (self : GLOFAlertSystem) (w : World)
    (cs : list GLOFContact) (a : GLOFAlert) (subject : string) :
  online self = true ->
  result_of (_send_message w cs (message a) subject (start self))
  = result_of (_send_alert w cs {| m_self := self; m_alert := Some a |})
  /\ trace_of (_send_message w cs (message a) subject (start self))
     = trace_of (_send_alert w cs {| m_self := self; m_alert := Some a |}).
Proof.
  unfold online. intros Hon.
  unfold _send_message, _send_alert, try_except, bind, get_alert, get_self,
    queue_offline, modify_alert, on_offline_manager, put_alert,
    put_offline_manager, start; cbn.
  rewrite Hon. cbn.
  destruct (send_glof_email_run w (emails_of cs))
    as (er & et & Het & Hne & Hmail).
  destruct (send_glof_sms_run (sms_provider self) w (phones_of cs) (message a))
    as [r Hr].
  destruct (phones_of cs) as [| ph phs]; cbn;
    rewrite ?Hr; try destruct r as [[j | err] | e]; cbn;
    rewrite ?Hon; cbn;
    destruct (email_provider self) as [provider |]; cbn;
    destruct (emails_of cs) as [| em ems]; cbn;
    rewrite ?Hmail; cbn;
    destruct (email_get_success er); cbn; split; reflexivity.
Qed.

Lemma _send_alert_tries_sms (self : GLOFAlertSystem) (w : World)
    (cs : list GLOFContact) (a : GLOFAlert) :
  phones_of cs <> [] ->
  sms_attempted
    (trace_of (_send_alert w cs {| m_self := self; m_alert := Some a |}))
  = true.
Proof.
  intros Hph.
  unfold _send_alert, try_except, bind, get_alert, get_self, queue_offline,
    modify_alert, on_offline_manager, put_alert, put_offline_manager; cbn.
  destruct (send_glof_email_run w (emails_of cs))
    as (er & et & Het & Hne & Hmail).
  destruct (send_glof_sms_run (sms_provider self) w (phones_of cs) (message a))
    as [r Hr].
  destruct (phones_of cs) as [| ph phs]; [contradiction |]. cbn.
  rewrite Hr. destruct r as [[j | err] | e]; cbn;
    destruct (is_online (offline_manager self)); cbn;
    destruct (email_provider self) as [provider |]; cbn;
    destruct (emails_of cs) as [| em ems]; cbn;
    rewrite ?Hmail; cbn;
    destruct (email_get_success er); cbn; reflexivity.
Qed.

Lemma send_all_clear_unfold (self : GLOFAlertSystem) (w : World)
    (lake : string) (types : option (list UserType)) :
  get_contacts_for_lake (contact_manager self) lake (default_user_types types)
  <> [] ->
  run (send_all_clear w lake types) self
  = _send_message w
      (get_contacts_for_lake (contact_manager self) lake
         (default_user_types types))
      (format_all_clear_message (now_ist w) lake None)
      ("GLOF All Clear - " ++ lake) (start self).
Proof.
  intros Hcs.
  unfold run, send_all_clear, try_except, bind, get_self.
  cbn -[_send_message append format_all_clear_message].
  destruct (get_contacts_for_lake (contact_manager self) lake
              (default_user_types types)) as [| c cs]; [contradiction |].
  cbn -[_send_message append format_all_clear_message].
  destruct (_send_message_run w (c :: cs)
              (format_all_clear_message (now_ist w) lake None)
              ("GLOF All Clear - " ++ lake) (start self))
    as (b & t & Hrun & _).
  rewrite Hrun. cbn. rewrite app_nil_r. reflexivity.
Qed.

Lemma send_all_clear_offline (self : GLOFAlertSystem) (w : World)
    (lake : string) (types : option (list UserType)) :
  online self = false ->
  run (send_all_clear w lake types) self = (Ret false, start self, []).
Proof.
  intros Hoff.
  destruct (get_contacts_for_lake (contact_manager self) lake
              (default_user_types types)) as [| c cs] eqn:Hcs.
  - unfold run, send_all_clear, try_except, bind, get_self. cbn.
    rewrite Hcs. reflexivity.
  - rewrite send_all_clear_unfold by (rewrite Hcs; discriminate).
    apply _send_message_offline. exact Hoff.
Qed.

(** C3, as the code has it.  [send_all_clear] resolves its contacts like
    [send_glof_alert] and hands them to [_send_message].  While the
    connectivity flag is online, [_send_message] sends a message through the
    same channels, in the same order (SMS first, then email) and with the
    same result as [_send_alert] does for an alert carrying that message.
    While the flag is offline, [send_all_clear] attempts no channel at all
    and returns [False], whereas [_send_alert] still attempts the SMS. *)
Theorem all_clear_dispatch_gated_online (self : GLOFAlertSystem) (w : World)
    (cs : list GLOFContact) (a : GLOFAlert) (subject lake : string)
    (types : option (list UserType)) :
  (get_contacts_for_lake (contact_manager self) lake (default_user_types types)
   <> [] ->
   run (send_all_clear w lake types) self
   = _send_message w
       (get_contacts_for_lake (contact_manager self) lake
          (default_user_types types))
       (format_all_clear_message (now_ist w) lake None)
       ("GLOF All Clear - " ++ lake) (start self))
  /\ (online self = true ->
      result_of (_send_message w cs (message a) subject (start self))
      = result_of (_send_alert w cs {| m_self := self; m_alert := Some a |})
      /\ trace_of (_send_message w cs (message a) subject (start self))
         = trace_of (_send_alert w cs {| m_self := self; m_alert := Some a |}))
  /\ (online self = false ->
      run (send_all_clear w lake types) self = (Ret false, start self, []))
  /\ (online self = false ->
      phones_of cs <> [] ->
      sms_attempted
        (trace_of (_send_alert w cs {| m_self := self; m_alert := Some a |}))
      = true).
Proof.
  split; [| split; [| split]].
  - apply send_all_clear_unfold.
  - apply dispatchers_agree_online.
  - apply send_all_clear_offline.
  - intros _. apply _send_alert_tries_sms.
Qed.

(** C3 on the predefined contacts: online with the gateway unreachable the
    all-clear text goes out by mail like an alert would; offline the
    all-clear goes nowhere. *)
Lemma all_clear_dispatch_gated_online_witness :
  result_of (_send_message world_sms_down predefined_contacts
               (format_all_clear_message "" "Pangong Tso" (Some "now"))
               "GLOF All Clear - Pangong Tso" (start sample_system))
  = Ret true
  /\ channel_attempts
       (trace_of (_send_message world_sms_down predefined_contacts
                    (format_all_clear_message "" "Pangong Tso" (Some "now"))
                    "GLOF All Clear - Pangong Tso" (start sample_system)))
     = [inl "8956911720,9765743155,9699216764"; inr SmtpConnect;
        inr SmtpStartTls; inr SmtpLogin;
        inr (SmtpSendmail "bhavsarkrishna02@gmail.com");
        inr (SmtpSendmail "rajputmanas593@gmail.com");
        inr (SmtpSendmail "yash61304@gmail.com"); inr SmtpQuit]
  /\ run (send_all_clear world_ok "Pangong Tso" None) offline_system
     = (Ret false, start offline_system, [])
  /\ sms_attempted
       (trace_of (_send_alert world_ok predefined_contacts
                    {| m_self := offline_system;
                       m_alert := Some (new_alert world_ok "Pangong Tso" HIGH
                                          None predefined_contacts) |}))
     = true.
Proof.
  pose proof (all_clear_dispatch_gated_online sample_system world_sms_down
                predefined_contacts
                {| alert_id := ""; glacial_lake := "Pangong Tso";
                   risk_level := HIGH; timestamp := "now";
                   message := format_all_clear_message "" "Pangong Tso"
                                (Some "now");
                   contacts := []; status := PENDING; created_at := "";
                   sent_at := None; retry_count := 0%Z;
                   additional_data := None |}
                "GLOF All Clear - Pangong Tso" "Pangong Tso" None)
    as (_ & Hon & _ & _).
  destruct (Hon eq_refl) as [Hres Htr].
  pose proof (all_clear_dispatch_gated_online offline_system world_ok
                predefined_contacts
                (new_alert world_ok "Pangong Tso" HIGH None predefined_contacts)
                "" "Pangong Tso" None)
    as (_ & _ & Hoff & Hsms).
  split; [| split; [| split]].
  - cbn [message] in Hres. rewrite Hres. reflexivity.
  - cbn [message] in Htr. rewrite Htr. reflexivity.
  - apply Hoff. reflexivity.
  - apply Hsms; [reflexivity | discriminate].
Defined.

(** C3 as stated fails: with the connectivity flag offline and a working
    gateway, [send_glof_alert] posts the SMS and returns [True], while
    [send_all_clear], for the same contacts, attempts no SMS and returns
    [False]. *)
Lemma all_clear_skips_sms_offline :
  sms_attempted
    (trace_of (run (send_glof_alert world_ok "Pangong Tso" HIGH None None)
                 offline_system)) = true
  /\ result_of (run (send_glof_alert world_ok "Pangong Tso" HIGH None None)
                  offline_system) = Ret true
  /\ sms_attempted
       (trace_of (run (send_all_clear world_ok "Pangong Tso" None)
                    offline_system)) = false
  /\ result_of (run (send_all_clear world_ok "Pangong Tso" None)
                  offline_system) = Ret false.
Proof. repeat split. Qed.

(* ================================================================== *)
(** ** Connectivity flag and offline queuing over a run *)

Lemma send_glof_alert_keeps_flag (self : GLOFAlertSystem) (w : World)
    (lake : string) (level : GLOFRiskLevel) (info : option string)
    (types : option (list UserType)) :
  probed (trace_of (run (send_glof_alert w lake level info types) self)) = false
  /\ online (system_after (run (send_glof_alert w lake level info types) self))
     = online self.
Proof.
  destruct (send_glof_alert_cases self w lake level info types)
    as [[_ Hrun] | [_ (b & self' & a' & t & Hrun & Hd)]];
    rewrite Hrun; unfold trace_of, system_after, mem_of;
    cbn [fst snd m_self].
  - split; reflexivity.
  - inversion Hd; subst; split; try assumption; reflexivity.
Qed.

Lemma exec_op_online (op : Op) (self : GLOFAlertSystem) :
  failing_check op = false ->
  online_and_empty self ->
  online_and_empty (fst (exec_op op self))
  /\ marked_queued (snd (exec_op op self)) = false.
Proof.
  intros Hop [Hon Hq].
  destruct op as [w lake level info types | w lake types | | w];
    cbn [exec_op fst snd].
  - (* send_glof_alert *)
    destruct (send_glof_alert_cases self w lake level info types)
      as [[_ Hrun] | [_ (b & self' & a' & t & Hrun & Hd)]];
      rewrite Hrun; unfold system_after, alert_after, mem_of, marked_queued;
      cbn [fst snd m_self m_alert rep_alert].
    + repeat split; assumption.
    + inversion Hd as [t0 Hoff | t0 | t0 | t0]; subst.
      * rewrite Hon in Hoff. discriminate.
      * repeat split; assumption.
      * repeat split; assumption.
      * repeat split; assumption.
  - (* send_all_clear *)
    destruct (send_all_clear_run self w lake types) as (b & t & Hrun & _).
    rewrite Hrun. unfold system_after, alert_after, mem_of, marked_queued.
    cbn. repeat split; assumption.
  - (* get_queued_alerts *)
    unfold online_and_empty, online, queue_of in *. cbn.
    unfold get_queued_alerts. rewrite Hq. cbn. repeat split. exact Hon.
  - (* check_connectivity finding the network up *)
    cbn in Hop. apply negb_false_iff in Hop.
    unfold online_and_empty, online, queue_of in *. cbn.
    unfold check_connectivity. rewrite Hop. cbn. repeat split. exact Hq.
Qed.

Lemma exec_run_online (ops : list Op) :
  forall self,
    existsb failing_check ops = false ->
    online_and_empty self ->
    online_and_empty (fst (exec_run ops self))
    /\ existsb marked_queued (snd (exec_run ops self)) = false.
Proof.
  induction ops as [| op rest IH]; intros self Hops Hinv; cbn [exec_run].
  - split; [exact Hinv | reflexivity].
  - cbn [existsb] in Hops. apply orb_false_iff in Hops as [Hop Hrest].
    destruct (exec_op_online op self Hop Hinv) as [Hinv1 Hm].
    destruct (exec_op op self) as [self1 rep] eqn:E1. cbn [fst snd] in *.
    destruct (IH self1 Hrest Hinv1) as [Hinv2 Hms].
    destruct (exec_run rest self1) as [self2 reps] eqn:E2.
    cbn [fst snd existsb] in *.
    split; [exact Hinv2 |]. rewrite Hm, Hms. reflexivity.
Qed.

(** C9.  A freshly constructed system is flagged online; [send_glof_alert]
    never probes connectivity and leaves the flag as it found it; so over
    any run of calls from construction in which no connectivity check finds
    the network down, the flag stays online, no alert record is ever marked
    [OFFLINE_QUEUED] and the offline queue stays empty. *)
Theorem online_run_never_queues (key : string)
    (email_config : option GLOFEmailProvider) (ops : list Op) :
  online (GLOFAlertSystem_init key email_config) = true
  /\ (forall self w lake level info types,
        probed (trace_of (run (send_glof_alert w lake level info types) self))
        = false
        /\ online (system_after
                     (run (send_glof_alert w lake level info types) self))
           = online self)
  /\ (existsb failing_check ops = false ->
      online (fst (exec_run ops (GLOFAlertSystem_init key email_config))) = true
      /\ queue_of (fst (exec_run ops (GLOFAlertSystem_init key email_config)))
         = []
      /\ existsb marked_queued
           (snd (exec_run ops (GLOFAlertSystem_init key email_config)))
         = false).
Proof.
  split; [reflexivity | split].
  - intros. apply send_glof_alert_keeps_flag.
  - intros Hops.
    destruct (exec_run_online ops (GLOFAlertSystem_init key email_config) Hops)
      as [[Hon Hq] Hm].
    + split; reflexivity.
    + repeat split; assumption.
Qed.

(** C9 on a run of four calls in which every channel is down but
    connectivity is never found down. *)
Lemma online_run_never_queues_witness :
  existsb marked_queued
    (snd (exec_run
            [OpSendAlert world_sms_down "Pangong Tso" CRITICAL None None;
             OpCheckConnectivity world_ok;
             OpSendAlert (sample_clock post_unreachable mail_down true)
               "Pangong Tso" HIGH (Some "X") None;
             OpGetQueuedAlerts]
            sample_system)) = false
  /\ queue_of
       (fst (exec_run
               [OpSendAlert world_sms_down "Pangong Tso" CRITICAL None None;
                OpCheckConnectivity world_ok;
                OpSendAlert (sample_clock post_unreachable mail_down true)
                  "Pangong Tso" HIGH (Some "X") None;
                OpGetQueuedAlerts]
               sample_system)) = [].
Proof.
  destruct (online_run_never_queues "KEY" (Some sample_email_config)
              [OpSendAlert world_sms_down "Pangong Tso" CRITICAL None None;
               OpCheckConnectivity world_ok;
               OpSendAlert (sample_clock post_unreachable mail_down true)
                 "Pangong Tso" HIGH (Some "X") None;
               OpGetQueuedAlerts])
    as (_ & _ & Hrun).
  destruct (Hrun eq_refl) as (_ & Hq & Hm).
  split; [exact Hm | exact Hq].
Defined.

(* ================================================================== *)
(** ** The offline queue *)

Lemma drain_loop_all (queue acc : list GLOFAlert) :
  drain_loop queue acc = (acc ++ queue, []).
Proof.
  revert acc. induction queue as [| a rest IH]; intros acc; cbn.
  - rewrite app_nil_r. reflexivity.
  - rewrite IH, <- app_assoc. reflexivity.
Qed.

Lemma enqueue_all_queue (alerts : list GLOFAlert) :
  forall om,
    offline_queue (enqueue_all om alerts) = offline_queue om ++ alerts
    /\ is_online (enqueue_all om alerts) = is_online om.
Proof.
  induction alerts as [| a rest IH]; intros om; cbn.
  - rewrite app_nil_r. split; reflexivity.
  - destruct (IH {| offline_queue := offline_queue om ++ [a];
                    is_online := is_online om |}) as [Hq Ho].
    rewrite Hq, Ho. cbn. rewrite <- app_assoc. split; reflexivity.
Qed.

Lemma get_queued_alerts_all (om : GLOFOfflineManager) :
  get_queued_alerts om
  = (offline_queue om, {| offline_queue := []; is_online := is_online om |}).
Proof.
  unfold get_queued_alerts. rewrite drain_loop_all. reflexivity.
Qed.

(** C6.  After any sequence of enqueues on a new offline manager, one drain
    returns exactly the enqueued alerts, as many and in the order they were
    enqueued, and leaves the queue empty; a second drain returns the empty
    list. *)
Theorem drain_is_fifo_and_empties (alerts : list GLOFAlert) :
  let om := enqueue_all GLOFOfflineManager_init alerts in
  fst (get_queued_alerts om) = alerts
  /\ List.length (fst (get_queued_alerts om)) = List.length alerts
  /\ offline_queue (snd (get_queued_alerts om)) = []
  /\ fst (get_queued_alerts (snd (get_queued_alerts om))) = [].
Proof.
  intros om. subst om.
  rewrite !get_queued_alerts_all. cbn [fst snd offline_queue].
  destruct (enqueue_all_queue alerts GLOFOfflineManager_init) as [Hq _].
  rewrite Hq. cbn. repeat split.
Qed.

(** The same from any state of the manager: what was queued before comes
    out first. *)
Lemma drain_after_enqueues (om : GLOFOfflineManager) (alerts : list GLOFAlert) :
  fst (get_queued_alerts (enqueue_all om alerts)) = offline_queue om ++ alerts.
Proof.
  rewrite get_queued_alerts_all. cbn [fst].
  apply (enqueue_all_queue alerts om).
Qed.

(* ================================================================== *)
(** ** The email session *)

(** C8 fails on the code when the login is refused: the session has been
    opened, the exception goes to the outer handler and [quit] is never
    called. *)
Theorem login_failure_leaves_session_open (provider : GLOFEmailProvider)
    (recipients : list string) (lake msg : string) (m : Mem) :
  send_glof_email provider world_login_refused recipients lake msg m
  = (Ret (EmailError "SMTP error"), m,
     [EvSmtp SmtpConnect true; EvSmtp SmtpStartTls true; EvSmtp SmtpLogin false;
      EvEmailResult (EmailError "SMTP error")])
  /\ existsb is_connect_ok
       (trace_of (send_glof_email provider world_login_refused recipients lake
                    msg m)) = true
  /\ existsb is_quit
       (trace_of (send_glof_email provider world_login_refused recipients lake
                    msg m)) = false.
Proof. repeat split. Qed.

(** Once the session is set up, [quit] is called whatever happens to the
    individual recipients. *)
Lemma session_quit_after_setup (provider : GLOFEmailProvider) (w : World)
    (recipients : list string) (lake msg : string) (m : Mem) :
  smtp w SmtpConnect = true ->
  smtp w SmtpStartTls = true ->
  smtp w SmtpLogin = true ->
  existsb is_quit (trace_of (send_glof_email provider w recipients lake msg m))
  = true.
Proof.
  intros Hc Hs Hl.
  destruct (send_each_run w recipients [] 0) as (st & t & Ht & Hrun).
  unfold send_glof_email, send_glof_email_try, try_except, bind, smtp_call,
    emit, trace_of.
  rewrite Hc, Hs, Hl. cbn. rewrite Hrun. cbn.
  destruct (smtp w SmtpQuit); cbn; rewrite !existsb_app; cbn;
    rewrite ?orb_true_r; reflexivity.
Qed.

(* ================================================================== *)
(** ** The message formatter *)

Lemma append_length (s1 s2 : string) :
  String.length (s1 ++ s2) = String.length s1 + String.length s2.
Proof. induction s1 as [| c s1 IH]; cbn; [reflexivity | now rewrite IH]. Qed.

(** C10.  For every lake, risk level and timestamp, [format_glof_message]
    gives the same text for the empty string as extra information as for no
    extra information; for a non-empty string it appends the "Additional
    Info" section to that text; and only the empty string gives the text
    without the section. *)
Theorem empty_info_is_no_info (clock lake : string) (level : GLOFRiskLevel)
    (ts : option string) :
  format_glof_message clock lake level ts (Some "")
  = format_glof_message clock lake level ts None
  /\ (forall c info,
        format_glof_message clock lake level ts (Some (String c info))
        = (format_glof_message clock lake level ts None
           ++ PyStr.nl ++ PyStr.nl ++ "*Additional Info:* " ++ String c info)
            %string)
  /\ (forall info,
        format_glof_message clock lake level ts (Some info)
        = format_glof_message clock lake level ts None
        <-> info = "").
Proof.
  split; [reflexivity | split].
  - intros c info. reflexivity.
  - intros info. split.
    + destruct info as [| c info]; [reflexivity |].
      intros H. apply (f_equal String.length) in H.
      unfold format_glof_message in H. cbn [PyStr.truthy] in H.
      rewrite append_length in H. cbn in H. lia.
    + intros ->. reflexivity.
Qed.

(* ================================================================== *)
(** ** The risk mapping of the [/alert] handler *)

Lemma Qgtb_true (a b : Q) : Qgtb a b = true <-> (b < a)%Q.
Proof.
  unfold Qgtb. rewrite negb_true_iff. split.
  - intros H. apply Qnot_le_lt. intros Hle.
    apply Qle_bool_iff in Hle. congruence.
  - intros H. destruct (Qle_bool a b) eqn:E; [| reflexivity].
    apply Qle_bool_iff in E. exfalso. exact (Qlt_not_le _ _ H E).
Qed.

Lemma Qgtb_false (a b : Q) : Qgtb a b = false <-> (a <= b)%Q.
Proof.
  unfold Qgtb. rewrite negb_false_iff. apply Qle_bool_iff.
Qed.

(** C4.  For every numeric score [s]: above 70 the level is CRITICAL, above
    40 and at most 70 it is HIGH, at most 40 it is MODERATE; LOW is never
    produced; 71, 70, 41 and 40 give CRITICAL, HIGH, HIGH and MODERATE. *)
Theorem risk_level_thresholds (s : Q) :
  ((70 # 1 < s)%Q -> risk_level_of_score s = CRITICAL)
  /\ ((40 # 1 < s)%Q -> (s <= 70 # 1)%Q -> risk_level_of_score s = HIGH)
  /\ ((s <= 40 # 1)%Q -> risk_level_of_score s = MODERATE)
  /\ risk_level_of_score s <> LOW
  /\ risk_level_of_score (71 # 1) = CRITICAL
  /\ risk_level_of_score (70 # 1) = HIGH
  /\ risk_level_of_score (41 # 1) = HIGH
  /\ risk_level_of_score (40 # 1) = MODERATE.
Proof.
  unfold risk_level_of_score.
  split; [| split; [| split; [| split]]].
  - intros H. apply Qgtb_true in H. rewrite H. reflexivity.
  - intros H1 H2. apply Qgtb_true in H1. apply Qgtb_false in H2.
    rewrite H2, H1. reflexivity.
  - intros H. assert (H70 : (s <= 70 # 1)%Q).
    { apply Qle_trans with (40 # 1)%Q; [exact H | discriminate]. }
    apply Qgtb_false in H, H70. rewrite H70, H. reflexivity.
  - destruct (Qgtb s (70 # 1)); [discriminate |].
    destruct (Qgtb s (40 # 1)); discriminate.
  - repeat split.
Qed.

(** C4 at the scores 70.5, 55 and 12. *)
Lemma risk_level_thresholds_witness :
  risk_level_of_score (141 # 2) = CRITICAL
  /\ risk_level_of_score (55 # 1) = HIGH
  /\ risk_level_of_score (12 # 1) = MODERATE.
Proof.
  destruct (risk_level_thresholds (141 # 2)) as (Hcritical & _).
  destruct (risk_level_thresholds (55 # 1)) as (_ & Hhigh & _).
  destruct (risk_level_thresholds (12 # 1)) as (_ & _ & Hmoderate & _).
  split; [| split].
  - apply Hcritical. reflexivity.
  - apply Hhigh; [reflexivity | discriminate].
  - apply Hmoderate. discriminate.
Defined.

(* ================================================================== *)
(** ** Phone number normalisation *)

Lemma prefix_empty (s : string) : String.prefix "" s = true.
Proof. destruct s; reflexivity. Qed.

Lemma replace_char_cons (c d : ascii) (s : string) :
  PyStr.replace (String c "") "" (String d s)
  = if Ascii.eqb c d then PyStr.replace (String c "") "" s
    else String d (PyStr.replace (String c "") "" s).
Proof.
  unfold PyStr.replace. cbn [PyStr.replace_from String.prefix].
  destruct (ascii_dec c d) as [-> | Hne].
  - rewrite prefix_empty, Ascii.eqb_refl. reflexivity.
  - apply Ascii.eqb_neq in Hne. rewrite Hne. reflexivity.
Qed.




Lemma replace_code_after (a s : string) :
  PyStr.mem_char "+" a = false ->
  PyStr.replace "+91" "" (a ++ s) = (a ++ PyStr.replace "+91" "" s)%string.
Proof.
  induction a as [| c a IH]; [reflexivity |].
  cbn [PyStr.mem_char]. intros H. apply orb_false_iff in H as [Hc Ha].
  unfold PyStr.replace in *. cbn [append PyStr.replace_from String.prefix].
  destruct (ascii_dec "+" c) as [<- | Hne].
  - rewrite Ascii.eqb_refl in Hc. discriminate.
  - rewrite (IH Ha). reflexivity.
Qed.

Lemma append_empty (s : string) : (s ++ "")%string = s.
Proof. induction s as [| c s IH]; cbn; [reflexivity | now rewrite IH]. Qed.







(** The shape is needed: with a '+' inside the number the code also deletes
    a "+91" that is not in front, which stripping a leading code does
    not. *)
Lemma interior_plus_is_outside_the_shape :
  leading_plus_only "0+911234" = false
  /\ clean_number "0+911234" = "01234"
  /\ normalize_by_spec "0+911234" = "0+911234".
Proof. repeat split. Qed.

(* ================================================================== *)
(** * Further properties of the code *)

(** ** The contact directory *)

Lemma get_contacts_loop_filter (lake : string)
    (types : option (list UserType)) (todo acc : list GLOFContact) :
  get_contacts_loop lake types todo acc
  = acc ++ filter (contact_matches lake types) todo.
Proof.
  revert acc. induction todo as [| c rest IH]; intros acc; cbn.
  - rewrite app_nil_r. reflexivity.
  - rewrite IH. destruct (contact_matches lake types c).
    + rewrite <- app_assoc. reflexivity.
    + reflexivity.
Qed.

Lemma type_in_iff (t : UserType) (types : option (list UserType)) :
  type_in t types = true <-> exists l, types = Some l /\ In t l.
Proof.
  destruct types as [l |]; cbn.
  - rewrite existsb_exists. split.
    + intros (u & Hin & Hu). exists l. split; [reflexivity |].
      destruct t, u; try discriminate; exact Hin.
    + intros (l' & [= <-] & Hin). exists t. split; [exact Hin |].
      destruct t; reflexivity.
  - split; [discriminate | intros (l & H & _); discriminate].
Qed.

(** X1.  [get_contacts_for_lake] returns, in directory order and without
    adding or dropping anything, exactly the contacts that are active, cover
    the lake (their area is "ALL" or the lake's name) and, when a non-empty
    role list is given, have one of its roles. *)
Theorem contacts_for_lake_exact (self : GLOFContactManager) (lake : string)
    (types : option (list UserType)) :
  get_contacts_for_lake self lake types
  = filter (contact_matches lake types) (cm_contacts self)
  /\ forall c,
       In c (get_contacts_for_lake self lake types)
       <-> In c (cm_contacts self)
           /\ active c = true
           /\ (lake_area c = "ALL" \/ lake_area c = lake)
           /\ (types_truthy types = false
               \/ exists l, types = Some l /\ In (user_type c) l).
Proof.
  assert (Heq : get_contacts_for_lake self lake types
                = filter (contact_matches lake types) (cm_contacts self)).
  { unfold get_contacts_for_lake. apply get_contacts_loop_filter. }
  split; [exact Heq |].
  intros c. rewrite Heq, filter_In. unfold contact_matches.
  split.
  - intros [Hin Hm]. split; [exact Hin |].
    destruct ((lake_area c =? "ALL") || (lake_area c =? lake)) eqn:Ha;
      [| discriminate].
    destruct (negb (types_truthy types) || type_in (user_type c) types) eqn:Ht;
      [| discriminate].
    split; [exact Hm | split].
    + apply orb_true_iff in Ha as [Ha | Ha]; apply String.eqb_eq in Ha; auto.
    + apply orb_true_iff in Ht as [Ht | Ht].
      * left. apply negb_true_iff. exact Ht.
      * right. apply type_in_iff. exact Ht.
  - intros (Hin & Hact & Harea & Htypes). split; [exact Hin |].
    assert (Ha : (lake_area c =? "ALL") || (lake_area c =? lake) = true).
    { apply orb_true_iff.
      destruct Harea as [H | H]; [left | right]; apply String.eqb_eq; exact H. }
    assert (Ht : negb (types_truthy types) || type_in (user_type c) types
                 = true).
    { apply orb_true_iff. destruct Htypes as [H | H].
      - left. apply negb_true_iff. exact H.
      - right. apply type_in_iff. exact H. }
    rewrite Ha, Ht. exact Hact.
Qed.

Lemma type_in_all (t : UserType) : type_in t (Some all_user_types) = true.
Proof. destruct t; reflexivity. Qed.

Lemma contact_matches_no_filter (lake : string) (c : GLOFContact) :
  contact_matches lake (Some []) c = contact_matches lake None c
  /\ contact_matches lake (Some all_user_types) c = contact_matches lake None c.
Proof.
  unfold contact_matches. rewrite type_in_all.
  destruct ((lake_area c =? "ALL") || (lake_area c =? lake)); split; reflexivity.
Qed.

(** X2.  An empty role list is no role filter: looking contacts up with the
    empty list, with no list, or with the list of all four roles gives the
    same contacts, and [send_glof_alert] and [send_all_clear] behave the
    same for the three. *)
Theorem empty_role_list_is_no_filter (self : GLOFContactManager) (w : World)
    (lake : string) (level : GLOFRiskLevel) (info : option string) (m : Mem) :
  get_contacts_for_lake self lake (Some []) = get_contacts_for_lake self lake None
  /\ get_contacts_for_lake self lake (Some all_user_types)
     = get_contacts_for_lake self lake None
  /\ send_glof_alert w lake level info (Some []) m
     = send_glof_alert w lake level info None m
  /\ send_glof_alert w lake level info (Some all_user_types) m
     = send_glof_alert w lake level info None m
  /\ send_all_clear w lake (Some []) m = send_all_clear w lake None m
  /\ send_all_clear w lake (Some all_user_types) m = send_all_clear w lake None m.
Proof.
  unfold get_contacts_for_lake. rewrite !get_contacts_loop_filter. cbn [app].
  split; [| split; [| repeat split]].
  - apply filter_ext. intros c. apply contact_matches_no_filter.
  - apply filter_ext. intros c. apply contact_matches_no_filter.
Qed.

(** [find] returns the first element that passes the test. *)
Lemma find_first_split {A : Type} (f : A -> bool) (l : list A) (x : A) :
  find f l = Some x ->
  exists before after,
    l = before ++ x :: after /\ forall y, In y before -> f y = false.
Proof.
  induction l as [| a l IH]; cbn; [discriminate |].
  destruct (f a) eqn:Ha.
  - intros [= ->]. exists [], l. split; [reflexivity | intros y []].
  - intros Hf. destruct (IH Hf) as (before & after & -> & Hb).
    exists (a :: before), after. split; [reflexivity |].
    intros y [<- | Hy]; [exact Ha | exact (Hb y Hy)].
Qed.

(** X3.  [get_contact_by_id] finds a contact of the directory carrying the
    requested id, the first one in directory order, and answers [None]
    exactly when no contact carries it; when the ids of the directory are
    pairwise distinct, looking up the id of a contact gives back that
    contact. *)
Theorem contact_by_id_lookup (self : GLOFContactManager) (contact_id : string) :
  (forall c, get_contact_by_id self contact_id = Some c ->
             In c (cm_contacts self) /\ id c = Some contact_id)
  /\ (get_contact_by_id self contact_id = None
      <-> forall c, In c (cm_contacts self) -> id c <> Some contact_id)
  /\ (forall c, NoDup (map id (cm_contacts self)) ->
                In c (cm_contacts self) -> id c = Some contact_id ->
                get_contact_by_id self contact_id = Some c)
  /\ (forall c, get_contact_by_id self contact_id = Some c ->
                exists before after,
                  cm_contacts self = before ++ c :: after
                  /\ forall d, In d before -> id d <> Some contact_id).
Proof.
  unfold get_contact_by_id.
  set (has := fun contact : GLOFContact =>
                match id contact with
                | Some i => i =? contact_id
                | None => false
                end).
  assert (Hhas : forall c, has c = true <-> id c = Some contact_id).
  { intros c. unfold has. destruct (id c) as [i |].
    - rewrite String.eqb_eq. split; [intros ->; reflexivity | intros [= ->]; reflexivity].
    - split; discriminate. }
  split; [| split; [| split]].
  - intros c Hf. apply find_some in Hf as [Hin Hc].
    split; [exact Hin | apply Hhas; exact Hc].
  - split.
    + intros Hf c Hin Hid. pose proof (find_none _ _ Hf c Hin) as Hn.
      apply Hhas in Hid. congruence.
    + intros Hno. destruct (find has (cm_contacts self)) as [c |] eqn:Hf;
        [| reflexivity].
      apply find_some in Hf as [Hin Hc]. apply Hhas in Hc.
      exfalso. exact (Hno c Hin Hc).
  - intros c. induction (cm_contacts self) as [| d rest IH]; cbn.
    + intros _ [].
    + intros Hnd Hin Hid. inversion Hnd as [| x l Hnotin Hnd']; subst.
      destruct (has d) eqn:Hd.
      * apply Hhas in Hd. destruct Hin as [-> | Hin]; [reflexivity |].
        exfalso. apply Hnotin. rewrite Hd, <- Hid. apply in_map. exact Hin.
      * destruct Hin as [-> | Hin].
        -- apply Hhas in Hid. congruence.
        -- apply IH; assumption.
  - intros c Hf.
    destruct (find_first_split has (cm_contacts self) c Hf)
      as (before & after & Hsplit & Hbefore).
    exists before, after. split; [exact Hsplit |].
    intros d Hd Hid. apply Hhas in Hid. rewrite (Hbefore d Hd) in Hid.
    discriminate.
Qed.

(** X3 on the directory the system ships with. *)
Lemma contact_by_id_lookup_witness :
  option_map name (get_contact_by_id GLOFContactManager_init "emergency_team_1")
  = Some "Emergency Response Team"
  /\ get_contact_by_id GLOFContactManager_init "nobody" = None.
Proof.
  destruct (contact_by_id_lookup GLOFContactManager_init "emergency_team_1")
    as (_ & _ & Hback & _).
  destruct (contact_by_id_lookup GLOFContactManager_init "nobody")
    as (_ & Hnone & _).
  split.
  - rewrite (Hback (nth 1 predefined_contacts blank_contact)).
    + reflexivity.
    + cbn. repeat constructor; cbn; intuition discriminate.
    + cbn. auto.
    + reflexivity.
  - apply Hnone. cbn. intros c [<- | [<- | [<- | []]]]; discriminate.
Defined.

(* ================================================================== *)
(** ** The SMS channel *)


Lemma replace_char_absent (c : ascii) (s : string) :
  PyStr.mem_char c s = false -> PyStr.replace (String c "") "" s = s.
Proof.
  induction s as [| d s IH]; [reflexivity |].
  cbn [PyStr.mem_char]. intros H. apply orb_false_iff in H as [Hd Hs].
  rewrite replace_char_cons, Hd, (IH Hs). reflexivity.
Qed.

(** X5.  A number holding no '+', no dash and no space goes into the payload
    as it is. *)
Theorem clean_number_keeps_plain (num : string) :
  PyStr.mem_char "+" num = false ->
  PyStr.mem_char "-" num = false ->
  PyStr.mem_char " " num = false ->
  clean_number num = num.
Proof.
  intros Hplus Hdash Hspace. unfold clean_number.
  assert (H1 : PyStr.replace "+91" "" num = num).
  { rewrite <- (append_empty num) at 1.
    rewrite (replace_code_after num "" Hplus). cbn. apply append_empty. }
  rewrite H1, (replace_char_absent "-" num Hdash).
  apply replace_char_absent. exact Hspace.
Qed.

(** X5 on a ten-digit number. *)
Lemma clean_number_keeps_plain_witness : clean_number "9876543210" = "9876543210".
Proof. apply clean_number_keeps_plain; reflexivity. Defined.

(** X6.  The country code is looked for before the dashes and spaces are
    taken out: written with a space or a dash after the plus sign it is not
    found, and the cleaned number still begins with "+91". *)
Theorem separated_country_code_survives (rest : string) :
  clean_number ("+ 91" ++ rest) = ("+91" ++ clean_number rest)%string
  /\ clean_number ("+-91" ++ rest) = ("+91" ++ clean_number rest)%string.
Proof.
  unfold clean_number, PyStr.replace. cbn. rewrite ?prefix_empty.
  split; reflexivity.
Qed.

(* ================================================================== *)
(** ** The email channel *)

Lemma send_each_exact (w : World) (recipients : list string) :
  forall failed sends m,
    send_each w recipients failed sends m
    = (Ret (failed ++ filter (refused w) recipients,
            sends + List.length (filter (accepted w) recipients)),
       m, sendmail_events w recipients).
Proof.
  unfold refused, accepted.
  induction recipients as [| r rest IH]; intros failed sends m; cbn.
  - rewrite app_nil_r, Nat.add_0_r. reflexivity.
  - unfold bind, try_except, smtp_call, emit. cbn.
    destruct (smtp w (SmtpSendmail r)); cbn; rewrite IH; cbn.
    + rewrite Nat.add_succ_r. reflexivity.
    + rewrite <- app_assoc. reflexivity.
Qed.

Lemma refused_none_iff (w : World) (recipients : list string) :
  Nat.eqb (List.length (filter (refused w) recipients)) 0
  = forallb (accepted w) recipients.
Proof.
  unfold refused, accepted.
  induction recipients as [| r rest IH]; cbn; [reflexivity |].
  destruct (smtp w (SmtpSendmail r)); cbn; [exact IH | reflexivity].
Qed.

Lemma accepted_refused_length (w : World) (recipients : list string) :
  List.length (filter (accepted w) recipients)
  + List.length (filter (refused w) recipients)
  = List.length recipients.
Proof.
  unfold refused, accepted.
  induction recipients as [| r rest IH]; cbn; [reflexivity |].
  destruct (smtp w (SmtpSendmail r)); cbn; lia.
Qed.

(** The whole of a session whose setup succeeds. *)
Lemma send_glof_email_after_setup (provider : GLOFEmailProvider) (w : World)
    (recipients : list string) (lake msg : string) (m : Mem) :
  setup_ok w = true ->
  send_glof_email provider w recipients lake msg m
  = (Ret (if smtp w SmtpQuit
          then EmailReport (forallb (accepted w) recipients)
                 (List.length (filter (accepted w) recipients))
                 (filter (refused w) recipients)
          else EmailError "SMTP error"),
     m,
     [EvSmtp SmtpConnect true; EvSmtp SmtpStartTls true; EvSmtp SmtpLogin true]
     ++ sendmail_events w recipients
     ++ [EvSmtp SmtpQuit (smtp w SmtpQuit);
         EvEmailResult
           (if smtp w SmtpQuit
            then EmailReport (forallb (accepted w) recipients)
                   (List.length (filter (accepted w) recipients))
                   (filter (refused w) recipients)
            else EmailError "SMTP error")]).
Proof.
  unfold setup_ok. intros H.
  apply andb_true_iff in H as [H Hl]. apply andb_true_iff in H as [Hc Hs].
  unfold send_glof_email, send_glof_email_try, try_except, bind, smtp_call,
    emit.
  rewrite Hc, Hs, Hl. cbn. rewrite send_each_exact. cbn.
  rewrite refused_none_iff.
  destruct (smtp w SmtpQuit); cbn; rewrite <- !app_assoc; reflexivity.
Qed.

(** A session whose setup fails ends at the failing step. *)
Lemma send_glof_email_setup_failure (provider : GLOFEmailProvider) (w : World)
    (recipients : list string) (lake msg : string) (m : Mem) :
  setup_ok w = false ->
  exists t,
    send_glof_email provider w recipients lake msg m
    = (Ret (EmailError "SMTP error"), m,
       t ++ [EvEmailResult (EmailError "SMTP error")])
    /\ existsb is_sendmail t = false
    /\ existsb is_quit t = false
    /\ count_events is_connect t = 1
    /\ forallb is_smtp t = true.
Proof.
  unfold setup_ok. intros H.
  unfold send_glof_email, send_glof_email_try, try_except, bind, smtp_call,
    emit.
  destruct (smtp w SmtpConnect); cbn.
  - destruct (smtp w SmtpStartTls); cbn.
    + destruct (smtp w SmtpLogin); cbn; [discriminate |].
      exists [EvSmtp SmtpConnect true; EvSmtp SmtpStartTls true;
              EvSmtp SmtpLogin false]. repeat split.
    + exists [EvSmtp SmtpConnect true; EvSmtp SmtpStartTls false].
      repeat split.
  - exists [EvSmtp SmtpConnect false]. repeat split.
Qed.

Lemma filter_sendmail_events (w : World) (recipients : list string) :
  filter is_sendmail (sendmail_events w recipients)
  = sendmail_events w recipients.
Proof.
  unfold sendmail_events.
  induction recipients as [| r rest IH]; cbn; [reflexivity | now rewrite IH].
Qed.

(** X7.  Once the session is set up, every recipient gets exactly one
    [sendmail], in list order, whether or not earlier recipients failed;
    when the session then closes normally the result counts the accepted
    recipients, lists the refused ones in order, is a success exactly when
    none was refused, and the two numbers add up to the recipients. *)
Theorem email_serves_every_recipient (provider : GLOFEmailProvider)
    (w : World) (recipients : list string) (lake msg : string) (m : Mem) :
  setup_ok w = true ->
  filter is_sendmail
    (trace_of (send_glof_email provider w recipients lake msg m))
  = sendmail_events w recipients
  /\ (smtp w SmtpQuit = true ->
      result_of (send_glof_email provider w recipients lake msg m)
      = Ret (EmailReport (forallb (accepted w) recipients)
               (List.length (filter (accepted w) recipients))
               (filter (refused w) recipients))
      /\ List.length (filter (accepted w) recipients)
         + List.length (filter (refused w) recipients)
         = List.length recipients).
Proof.
  intros Hsetup.
  rewrite (send_glof_email_after_setup provider w recipients lake msg m Hsetup).
  unfold trace_of, result_of. cbn [fst snd]. split.
  - cbn [app filter is_sendmail]. rewrite filter_app, filter_sendmail_events.
    cbn. apply app_nil_r.
  - intros Hq. rewrite Hq. split; [reflexivity |].
    apply accepted_refused_length.
Qed.

(** X7 on three recipients of which the second is refused. *)
Lemma email_serves_every_recipient_witness :
  result_of
    (send_glof_email sample_email_config
       (sample_clock post_ok
          (fun op =>
             match op with
             | SmtpSendmail r => negb (r =? "b@x")
             | _ => true
             end) true)
       ["a@x"; "b@x"; "c@x"] "Pangong Tso" "text" (start sample_system))
  = Ret (EmailReport false 2 ["b@x"]).
Proof.
  destruct (email_serves_every_recipient sample_email_config
              (sample_clock post_ok
                 (fun op =>
                    match op with
                    | SmtpSendmail r => negb (r =? "b@x")
                    | _ => true
                    end) true)
              ["a@x"; "b@x"; "c@x"] "Pangong Tso" "text" (start sample_system)
              eq_refl) as [_ Hreport].
  destruct (Hreport eq_refl) as [Hres _].
  rewrite Hres. reflexivity.
Defined.

(** X8.  [send_glof_email] never raises and leaves the objects of the
    system alone; it reports success exactly when every step of the session
    succeeded: connect, STARTTLS, login, the [sendmail] of every recipient
    and quit. *)
Theorem email_success_iff_all_steps (provider : GLOFEmailProvider) (w : World)
    (recipients : list string) (lake msg : string) (m : Mem) :
  exists r,
    result_of (send_glof_email provider w recipients lake msg m) = Ret r
    /\ mem_of (send_glof_email provider w recipients lake msg m) = m
    /\ (email_get_success r = true
        <-> setup_ok w = true
            /\ forallb (accepted w) recipients = true
            /\ smtp w SmtpQuit = true).
Proof.
  destruct (setup_ok w) eqn:Hsetup.
  - rewrite (send_glof_email_after_setup provider w recipients lake msg m
               Hsetup).
    eexists. split; [reflexivity |]. split; [reflexivity |].
    destruct (smtp w SmtpQuit); cbn.
    + split; [intros H; repeat split; exact H | intros (_ & H & _); exact H].
    + split; [discriminate | intros (_ & _ & H); discriminate].
  - destruct (send_glof_email_setup_failure provider w recipients lake msg m
                Hsetup) as (t & Hrun & _).
    rewrite Hrun. eexists. split; [reflexivity |]. split; [reflexivity |].
    cbn. split; [discriminate | intros (H & _); discriminate].
Qed.

(** X9.  When [quit] raises at the end of a session in which every
    recipient was accepted, the call still reports a failure: the result is
    an error although every [sendmail] succeeded. *)
Theorem quit_failure_hides_delivery (provider : GLOFEmailProvider) (w : World)
    (recipients : list string) (lake msg : string) (m : Mem) :
  setup_ok w = true ->
  forallb (accepted w) recipients = true ->
  smtp w SmtpQuit = false ->
  result_of (send_glof_email provider w recipients lake msg m)
  = Ret (EmailError "SMTP error")
  /\ filter is_sendmail
       (trace_of (send_glof_email provider w recipients lake msg m))
     = map (fun r => EvSmtp (SmtpSendmail r) true) recipients.
Proof.
  intros Hsetup Hall Hq.
  rewrite (send_glof_email_after_setup provider w recipients lake msg m Hsetup).
  unfold trace_of, result_of. cbn [fst snd]. rewrite Hq.
  split; [reflexivity |].
  cbn [app filter is_sendmail]. rewrite filter_app, filter_sendmail_events.
  cbn. rewrite app_nil_r. unfold sendmail_events.
  apply map_ext_in. intros r Hin.
  rewrite forallb_forall in Hall. unfold accepted in Hall.
  rewrite (Hall r Hin). reflexivity.
Qed.

(** X9 with two recipients and a relay that drops the connection at quit. *)
Lemma quit_failure_hides_delivery_witness :
  result_of
    (send_glof_email sample_email_config
       (sample_clock post_ok
          (fun op => match op with SmtpQuit => false | _ => true end) true)
       ["a@x"; "b@x"] "Pangong Tso" "text" (start sample_system))
  = Ret (EmailError "SMTP error").
Proof.
  apply (quit_failure_hides_delivery sample_email_config
           (sample_clock post_ok
              (fun op => match op with SmtpQuit => false | _ => true end) true)
           ["a@x"; "b@x"] "Pangong Tso" "text" (start sample_system));
    reflexivity.
Defined.

(** X10.  When connect, STARTTLS or login raises, the session ends there:
    no [sendmail] is attempted for any recipient, the connection is
    attempted once, and the result is an error. *)
Theorem setup_failure_sends_nothing (provider : GLOFEmailProvider) (w : World)
    (recipients : list string) (lake msg : string) (m : Mem) :
  setup_ok w = false ->
  result_of (send_glof_email provider w recipients lake msg m)
  = Ret (EmailError "SMTP error")
  /\ existsb is_sendmail
       (trace_of (send_glof_email provider w recipients lake msg m)) = false
  /\ count_events is_connect
       (trace_of (send_glof_email provider w recipients lake msg m)) = 1.
Proof.
  intros Hsetup.
  destruct (send_glof_email_setup_failure provider w recipients lake msg m
              Hsetup) as (t & Hrun & Hsend & _ & Hconn & _).
  rewrite Hrun. unfold trace_of, result_of. cbn [fst snd].
  split; [reflexivity |]. split.
  - rewrite existsb_app, Hsend. reflexivity.
  - unfold count_events in *. rewrite filter_app, length_app, Hconn.
    reflexivity.
Qed.

(** X10 with a relay that cannot be reached. *)
Lemma setup_failure_sends_nothing_witness :
  result_of (send_glof_email sample_email_config world_all_down
               ["a@x"; "b@x"] "Pangong Tso" "text" (start sample_system))
  = Ret (EmailError "SMTP error")
  /\ existsb is_sendmail
       (trace_of (send_glof_email sample_email_config world_all_down
                    ["a@x"; "b@x"] "Pangong Tso" "text" (start sample_system)))
     = false
  /\ count_events is_connect
       (trace_of (send_glof_email sample_email_config world_all_down
                    ["a@x"; "b@x"] "Pangong Tso" "text" (start sample_system)))
     = 1.
Proof.
  apply (setup_failure_sends_nothing sample_email_config world_all_down
           ["a@x"; "b@x"] "Pangong Tso" "text" (start sample_system)).
  reflexivity.
Defined.

(* ================================================================== *)
(** ** The offline manager *)

Lemma om_run_state (ops : list OmOp) :
  forall om,
    offline_queue (om_run ops om) = offline_queue om ++ added ops
    /\ is_online (om_run ops om) = last_probe ops (is_online om).
Proof.
  unfold om_run.
  induction ops as [| op rest IH]; intros om; cbn.
  - rewrite app_nil_r. split; reflexivity.
  - destruct op as [alert | w]; cbn.
    + destruct (IH {| offline_queue := offline_queue om ++ [alert];
                      is_online := is_online om |}) as [Hq Ho].
      rewrite Hq, Ho. cbn. rewrite <- app_assoc. split; reflexivity.
    + unfold check_connectivity.
      destruct (requests_get_ok w); cbn;
        match goal with
        | |- context [fold_left om_step rest ?o] =>
            destruct (IH o) as [Hq Ho]; rewrite Hq, Ho
        end; split; reflexivity.
Qed.

(** X11.  Connectivity checks, whatever they find, never drop or reorder
    queued alerts: after any interleaving of [add_offline_alert] and
    [check_connectivity] calls on a new manager, [get_queued_alerts]
    returns the added alerts in the order they were added, and leaves the
    queue empty. *)
Theorem queue_survives_connectivity_checks (ops : list OmOp) :
  fst (get_queued_alerts (om_run ops GLOFOfflineManager_init)) = added ops
  /\ offline_queue (snd (get_queued_alerts (om_run ops GLOFOfflineManager_init)))
     = [].
Proof.
  rewrite get_queued_alerts_all. cbn [fst snd offline_queue].
  destruct (om_run_state ops GLOFOfflineManager_init) as [Hq _].
  rewrite Hq. split; reflexivity.
Qed.

(** X12.  The connectivity flag is what the most recent probe found, and
    true before any probe; queueing alerts and draining the queue never
    change it, and one successful probe brings an offline manager back
    online. *)
Theorem flag_follows_last_probe (ops : list OmOp) (w : World) :
  is_online (om_run ops GLOFOfflineManager_init) = last_probe ops true
  /\ is_online (snd (get_queued_alerts (om_run ops GLOFOfflineManager_init)))
     = last_probe ops true
  /\ is_online (om_run (ops ++ [OmCheck w]) GLOFOfflineManager_init)
     = requests_get_ok w
  /\ fst (check_connectivity w (om_run ops GLOFOfflineManager_init))
     = requests_get_ok w.
Proof.
  destruct (om_run_state ops GLOFOfflineManager_init) as [_ Ho].
  split; [exact Ho |]. split; [| split].
  - rewrite get_queued_alerts_all. cbn [snd is_online]. exact Ho.
  - unfold om_run. rewrite fold_left_app. cbn. unfold check_connectivity.
    destruct (requests_get_ok w); reflexivity.
  - unfold check_connectivity. destruct (requests_get_ok w); reflexivity.
Qed.

(* ================================================================== *)
(** ** The message formatter *)

(** X13.  An alert text and an all-clear text are never the same text,
    whatever lake, level, timestamp and extra information they are made
    from. *)
Theorem alert_text_is_not_all_clear (clock clock' lake lake' : string)
    (level : GLOFRiskLevel) (ts ts' info : option string) :
  format_glof_message clock lake level ts info
  <> format_all_clear_message clock' lake' ts'.
Proof.
  unfold format_glof_message, format_all_clear_message, base_message.
  destruct info as [[| c i] |]; cbn; discriminate.
Qed.

(* ================================================================== *)
(** ** The orchestrator *)

(** The log of [_send_alert]: the SMS part, then the mail part. *)
Lemma _send_alert_trace (self : GLOFAlertSystem) (w : World)
    (cs : list GLOFContact) (a : GLOFAlert) :
  exists ts tm,
    trace_of (_send_alert w cs {| m_self := self; m_alert := Some a |})
    = ts ++ tm
    /\ ((phones_of cs = [] /\ ts = [])
        \/ (phones_of cs <> []
            /\ exists r,
                 ts = [EvHttpPost (sms_payload (sms_provider self)
                                     (phones_of cs) (message a));
                       EvSmsResult r]))
    /\ (tm = []
        \/ (online self = true
            /\ emails_of cs <> []
            /\ exists provider,
                 email_provider self = Some provider
                 /\ tm = trace_of (send_glof_email provider w (emails_of cs)
                                     (glacial_lake a) (message a)
                                     (start self)))).
Proof.
  unfold _send_alert, try_except, bind, get_alert, get_self, queue_offline,
    modify_alert, on_offline_manager, put_alert, put_offline_manager, online,
    trace_of; cbn.
  destruct (send_glof_email_run w (emails_of cs))
    as (er & et & Het & Hne & Hmail).
  destruct (send_glof_sms_run (sms_provider self) w (phones_of cs) (message a))
    as [r Hr].
  destruct (phones_of cs) as [| ph phs]; cbn;
    [| rewrite Hr; destruct r as [[j | err] | e]; cbn ];
    destruct (is_online (offline_manager self)) eqn:Hon; cbn;
    destruct (email_provider self) as [provider |]; cbn;
    destruct (emails_of cs) as [| em ems]; cbn;
    rewrite ?Hmail; cbn;
    destruct (email_get_success er) eqn:Her; cbn;
    rewrite ?app_nil_r;
    match goal with
    | |- exists ts tm, ?p :: ?q :: ?rest = _ /\ _ =>
        exists [p; q], rest
    | |- exists ts tm, ?rest = _ /\ _ =>
        exists [], rest
    end;
    (split; [reflexivity |]);
    (split;
     [ first [ left; split; reflexivity
             | right; split; [discriminate | eexists; reflexivity] ]
     | first [ left; reflexivity
             | right; split; [reflexivity |];
               split; [discriminate |];
               eexists; split; [reflexivity |]; rewrite Hmail; reflexivity ] ]).
Qed.

Lemma send_glof_alert_unfold (self : GLOFAlertSystem) (w : World)
    (lake : string) (level : GLOFRiskLevel) (info : option string)
    (types : option (list UserType)) :
  get_contacts_for_lake (contact_manager self) lake (default_user_types types)
  <> [] ->
  run (send_glof_alert w lake level info types) self
  = _send_alert w
      (get_contacts_for_lake (contact_manager self) lake
         (default_user_types types))
      {| m_self := self;
         m_alert :=
           Some (new_alert w lake level info
                   (get_contacts_for_lake (contact_manager self) lake
                      (default_user_types types))) |}.
Proof.
  intros Hcs.
  destruct (_send_alert_cases self w
              (get_contacts_for_lake (contact_manager self) lake
                 (default_user_types types))
              (new_alert w lake level info
                 (get_contacts_for_lake (contact_manager self) lake
                    (default_user_types types))))
    as (b & self' & a' & t & Hrun & _).
  rewrite Hrun.
  unfold run, send_glof_alert, try_except, bind, get_self, put_alert, start.
  cbn -[_send_alert new_alert get_contacts_for_lake].
  destruct (get_contacts_for_lake (contact_manager self) lake
              (default_user_types types)) as [| c cs] eqn:E;
    [contradiction |].
  cbn -[_send_alert new_alert]. rewrite Hrun. cbn.
  rewrite app_nil_r. reflexivity.
Qed.

Lemma sendmail_events_no_connect (w : World) (recipients : list string) :
  filter is_connect (sendmail_events w recipients) = []
  /\ existsb is_sms_event (sendmail_events w recipients) = false.
Proof.
  unfold sendmail_events.
  induction recipients as [| r rest [IH1 IH2]]; cbn; [split; reflexivity |].
  rewrite IH1, IH2. split; reflexivity.
Qed.

(** One call of [send_glof_email] connects once and never touches the SMS
    gateway. *)
Lemma email_trace_facts (provider : GLOFEmailProvider) (w : World)
    (recipients : list string) (lake msg : string) (m : Mem) :
  count_events is_connect
    (trace_of (send_glof_email provider w recipients lake msg m)) = 1
  /\ existsb is_sms_event
       (trace_of (send_glof_email provider w recipients lake msg m)) = false
  /\ email_attempted
       (trace_of (send_glof_email provider w recipients lake msg m)) = true.
Proof.
  destruct (sendmail_events_no_connect w recipients) as [Hc Hs].
  destruct (setup_ok w) eqn:Hsetup.
  - rewrite (send_glof_email_after_setup provider w recipients lake msg m
               Hsetup).
    unfold trace_of, count_events. cbn [snd app filter is_connect].
    rewrite filter_app, Hc. cbn. rewrite existsb_app, Hs. cbn.
    repeat split.
  - destruct (send_glof_email_setup_failure provider w recipients lake msg m
                Hsetup) as (t & Hrun & _ & _ & Hconn & Hsmtp).
    rewrite Hrun. unfold trace_of, count_events, email_attempted in *.
    cbn [snd].
    rewrite filter_app, length_app, Hconn, !existsb_app.
    rewrite (existsb_none is_smtp is_sms_event t); [| | exact Hsmtp].
    + cbn. rewrite orb_true_r. repeat split.
    + intros []; cbn; congruence.
Qed.

Lemma count_events_app (p : Event -> bool) (t1 t2 : list Event) :
  count_events p (t1 ++ t2) = count_events p t1 + count_events p t2.
Proof. unfold count_events. rewrite filter_app. apply length_app. Qed.

(** The log of [_send_message]: the SMS part, then the mail part, and the
    result is the OR of the two channels. *)
Lemma _send_message_trace (w : World) (cs : list GLOFContact)
    (msg subject : string) (m : Mem) :
  exists b ts tm,
    _send_message w cs msg subject m = (Ret b, m, ts ++ tm)
    /\ (ts = []
        \/ (online (m_self m) = true
            /\ phones_of cs <> []
            /\ exists r,
                 ts = [EvHttpPost (sms_payload (sms_provider (m_self m))
                                     (phones_of cs) msg);
                       EvSmsResult r]))
    /\ (tm = []
        \/ (online (m_self m) = true
            /\ emails_of cs <> []
            /\ exists provider,
                 email_provider (m_self m) = Some provider
                 /\ tm = trace_of (send_glof_email provider w (emails_of cs)
                                     subject msg m)))
    /\ (b = true
        <-> sms_succeeded (ts ++ tm) || email_succeeded (ts ++ tm) = true).
Proof.
  unfold _send_message, try_except, bind, get_self, online, trace_of; cbn.
  destruct (send_glof_email_run w (emails_of cs))
    as (er & et & Het & Hne & Hmail).
  destruct (send_glof_sms_run (sms_provider (m_self m)) w (phones_of cs) msg)
    as [r Hr].
  destruct (is_online (offline_manager (m_self m))) eqn:Hon; cbn;
    destruct (phones_of cs) as [| ph phs]; cbn;
    rewrite ?Hr; try destruct r as [[j | err] | e]; cbn;
    destruct (email_provider (m_self m)) as [provider |]; cbn;
    destruct (emails_of cs) as [| em ems]; cbn;
    rewrite ?Hmail; cbn;
    destruct (email_get_success er) eqn:Her; cbn;
    rewrite ?app_nil_r;
    eexists;
    match goal with
    | |- exists ts tm, (_, _, ?p :: ?q :: ?rest) = _ /\ _ =>
        exists [p; q], rest
    | |- exists ts tm, (_, _, ?rest) = _ /\ _ =>
        exists [], rest
    end;
    (split; [reflexivity |]);
    (split;
     [ first [ left; reflexivity
             | right; split; [reflexivity |];
               split; [discriminate |]; eexists; reflexivity ] |]);
    (split;
     [ first [ left; reflexivity
             | right; split; [reflexivity |];
               split; [discriminate |];
               eexists; split; [reflexivity |]; rewrite Hmail; reflexivity ]
     |]);
    log_facts Het; rewrite ?Her; cbn;
    (split; [intros; reflexivity || discriminate | intros; reflexivity || discriminate]).
Qed.

(** X14.  [send_glof_alert] always returns a boolean, whatever the gateway
    and the relay do.  It never changes the contacts, the providers or the
    connectivity flag, and the offline queue either stays as it was or gets
    the alert of this call appended at the back. *)
Theorem send_alert_always_returns (self : GLOFAlertSystem) (w : World)
    (lake : string) (level : GLOFRiskLevel) (info : option string)
    (types : option (list UserType)) :
  (exists b,
     result_of (run (send_glof_alert w lake level info types) self) = Ret b)
  /\ contact_manager
       (system_after (run (send_glof_alert w lake level info types) self))
     = contact_manager self
  /\ sms_provider
       (system_after (run (send_glof_alert w lake level info types) self))
     = sms_provider self
  /\ email_provider
       (system_after (run (send_glof_alert w lake level info types) self))
     = email_provider self
  /\ online (system_after (run (send_glof_alert w lake level info types) self))
     = online self
  /\ (queue_of
        (system_after (run (send_glof_alert w lake level info types) self))
      = queue_of self
      \/ exists a,
           alert_after (run (send_glof_alert w lake level info types) self)
           = Some a
           /\ queue_of
                (system_after
                   (run (send_glof_alert w lake level info types) self))
              = queue_of self ++ [a]).
Proof.
  destruct (send_glof_alert_cases self w lake level info types)
    as [[_ Hrun] | [_ (b & self' & a' & t & Hrun & Hd)]];
    rewrite Hrun;
    unfold result_of, system_after, alert_after, mem_of;
    cbn [fst snd m_self m_alert].
  - split; [exists false; reflexivity |]. repeat split. left. reflexivity.
  - split; [exists b; reflexivity |].
    inversion Hd; subst; repeat split; try (left; reflexivity).
    right. eexists. split; reflexivity.
Qed.

(** X15.  [send_all_clear] always returns a boolean, allocates no alert
    record and leaves the whole system, offline queue included, as it was;
    it returns [True] exactly when the SMS call or the email call of this
    call succeeded. *)
Theorem all_clear_changes_nothing (self : GLOFAlertSystem) (w : World)
    (lake : string) (types : option (list UserType)) :
  exists b,
    result_of (run (send_all_clear w lake types) self) = Ret b
    /\ system_after (run (send_all_clear w lake types) self) = self
    /\ alert_after (run (send_all_clear w lake types) self) = None
    /\ (b = true
        <-> sms_succeeded (trace_of (run (send_all_clear w lake types) self))
            || email_succeeded
                 (trace_of (run (send_all_clear w lake types) self))
            = true).
Proof.
  destruct (get_contacts_for_lake (contact_manager self) lake
              (default_user_types types)) as [| c cs] eqn:Hcs.
  - exists false.
    unfold run, send_all_clear, try_except, bind, get_self. cbn.
    rewrite Hcs. cbn. repeat split; discriminate.
  - rewrite send_all_clear_unfold by (rewrite Hcs; discriminate).
    destruct (_send_message_trace w
                (get_contacts_for_lake (contact_manager self) lake
                   (default_user_types types))
                (format_all_clear_message (now_ist w) lake None)
                ("GLOF All Clear - " ++ lake) (start self))
      as (b & ts & tm & Hrun & _ & _ & Hor).
    rewrite Hrun. exists b. repeat split; apply Hor.
Qed.

(** X16.  There are no retries: one [send_glof_alert] posts to the SMS
    gateway at most once and opens at most one SMTP session, and so does
    one [send_all_clear]; in an alert dispatch nothing goes to the gateway
    once the mail session has begun. *)
Theorem each_channel_tried_once (self : GLOFAlertSystem) (w : World)
    (lake : string) (level : GLOFRiskLevel) (info : option string)
    (types : option (list UserType)) :
  count_events is_sms_attempt
    (trace_of (run (send_glof_alert w lake level info types) self)) <= 1
  /\ count_events is_connect
       (trace_of (run (send_glof_alert w lake level info types) self)) <= 1
  /\ (exists ts tm,
        trace_of (run (send_glof_alert w lake level info types) self)
        = ts ++ tm
        /\ forallb is_sms_event ts = true
        /\ existsb is_sms_event tm = false)
  /\ count_events is_sms_attempt
       (trace_of (run (send_all_clear w lake types) self)) <= 1
  /\ count_events is_connect
       (trace_of (run (send_all_clear w lake types) self)) <= 1.
Proof.
  assert (Hts : forall (ts : list Event) p,
             ts = [] \/ (exists r : res SmsResult, ts = [EvHttpPost p; EvSmsResult r]) ->
             count_events is_sms_attempt ts <= 1
             /\ count_events is_connect ts = 0
             /\ forallb is_sms_event ts = true).
  { intros ts p [-> | [r ->]]; cbn; repeat split; lia. }
  assert (Htm : forall (tm : list Event) rcpts la ms m0,
             tm = [] \/
             (exists provider,
                 tm = trace_of (send_glof_email provider w rcpts la ms m0)) ->
             count_events is_sms_attempt tm = 0
             /\ count_events is_connect tm <= 1
             /\ existsb is_sms_event tm = false).
  { intros tm rcpts la ms m0 [-> | [provider ->]].
    - cbn. repeat split; lia.
    - destruct (email_trace_facts provider w rcpts la ms m0)
        as (Hc & Hs & _).
      rewrite Hc, Hs. repeat split; [| lia].
      unfold count_events.
      assert (Hnone : existsb is_sms_attempt
                        (trace_of (send_glof_email provider w rcpts la ms m0))
                      = false).
      { revert Hs.
        generalize (trace_of (send_glof_email provider w rcpts la ms m0)).
        intros l. induction l as [| e l IH]; [reflexivity |].
        cbn. intros H. apply orb_false_iff in H as [He Hl].
        rewrite (IH Hl). destruct e; cbn in *; congruence. }
      revert Hnone.
      generalize (trace_of (send_glof_email provider w rcpts la ms m0)).
      intros l. induction l as [| e l IH]; [reflexivity |].
      cbn. intros H. apply orb_false_iff in H as [He Hl].
      rewrite He. exact (IH Hl). }
  assert (Halert :
            count_events is_sms_attempt
              (trace_of (run (send_glof_alert w lake level info types) self))
            <= 1
            /\ count_events is_connect
                 (trace_of (run (send_glof_alert w lake level info types) self))
               <= 1
            /\ (exists ts tm,
                  trace_of (run (send_glof_alert w lake level info types) self)
                  = ts ++ tm
                  /\ forallb is_sms_event ts = true
                  /\ existsb is_sms_event tm = false)).
  { destruct (get_contacts_for_lake (contact_manager self) lake
                (default_user_types types)) as [| c cs] eqn:Hcs.
    - rewrite (send_glof_alert_no_contacts self w lake level info types Hcs).
      cbn. repeat split; try lia. exists [], []. repeat split.
    - rewrite send_glof_alert_unfold by (rewrite Hcs; discriminate).
      rewrite Hcs.
      destruct (_send_alert_trace self w (c :: cs)
                  (new_alert w lake level info (c :: cs)))
        as (ts & tm & Ht & Hs & Hm).
      rewrite Ht, !count_events_app.
      destruct (Hts ts (sms_payload (sms_provider self) (phones_of (c :: cs))
                          (message (new_alert w lake level info (c :: cs)))))
        as (H1 & H2 & H3).
      { destruct Hs as [[_ ->] | [_ [r ->]]]; [left | right; exists r];
          reflexivity. }
      destruct (Htm tm (emails_of (c :: cs))
                  (glacial_lake (new_alert w lake level info (c :: cs)))
                  (message (new_alert w lake level info (c :: cs)))
                  (start self))
        as (H4 & H5 & H6).
      { destruct Hm as [-> | (_ & _ & provider & _ & ->)];
          [left | right; exists provider]; reflexivity. }
      split; [lia | split; [lia |]].
      exists ts, tm. repeat split; assumption. }
  destruct Halert as (Ha1 & Ha2 & Ha3).
  split; [exact Ha1 | split; [exact Ha2 | split; [exact Ha3 |]]].
  destruct (get_contacts_for_lake (contact_manager self) lake
              (default_user_types types)) as [| c cs] eqn:Hcs.
  - unfold run, send_all_clear, try_except, bind, get_self. cbn.
    rewrite Hcs. cbn. split; lia.
  - rewrite send_all_clear_unfold by (rewrite Hcs; discriminate).
    rewrite Hcs.
    destruct (_send_message_trace w (c :: cs)
                (format_all_clear_message (now_ist w) lake None)
                ("GLOF All Clear - " ++ lake) (start self))
      as (b & ts & tm & Hrun & Hs & Hm & _).
    rewrite Hrun. unfold trace_of. cbn [snd]. rewrite !count_events_app.
    destruct (Hts ts (sms_payload (sms_provider (m_self (start self)))
                        (phones_of (c :: cs))
                        (format_all_clear_message (now_ist w) lake None)))
      as (H1 & H2 & _).
    { destruct Hs as [-> | (_ & _ & r & ->)]; [left | right; exists r];
        reflexivity. }
    destruct (Htm tm (emails_of (c :: cs))
                ("GLOF All Clear - " ++ lake)%string
                (format_all_clear_message (now_ist w) lake None) (start self))
      as (H4 & H5 & _).
    { destruct Hm as [-> | (_ & _ & provider & _ & ->)];
        [left | right; exists provider]; reflexivity. }
    split; lia.
Qed.

(** X17.  A dispatch only ever writes the status and the sent time of the
    alert record: the record it leaves names the lake and level of the
    call, lists the ids of the contacts found for the lake, carries the
    formatted text that was sent, and has the id, times, retry count and
    extra data it was created with. *)
Theorem dispatch_keeps_alert_content (self : GLOFAlertSystem) (w : World)
    (lake : string) (level : GLOFRiskLevel) (info : option string)
    (types : option (list UserType)) (a : GLOFAlert) :
  alert_after (run (send_glof_alert w lake level info types) self) = Some a ->
  same_content a
    (new_alert w lake level info
       (get_contacts_for_lake (contact_manager self) lake
          (default_user_types types)))
  /\ glacial_lake a = lake
  /\ risk_level a = level
  /\ contacts a
     = map id (get_contacts_for_lake (contact_manager self) lake
                 (default_user_types types))
  /\ message a
     = format_glof_message (now_ist w) lake level (Some (now_ist w)) info
  /\ retry_count a = 0%Z.
Proof.
  destruct (send_glof_alert_cases self w lake level info types)
    as [[_ Hrun] | [_ (b & self' & a' & t & Hrun & Hd)]];
    rewrite Hrun; unfold alert_after, mem_of; cbn [fst snd m_alert].
  - discriminate.
  - intros [= <-].
    inversion Hd; subst; unfold same_content; repeat split.
Qed.

(** X17 on an alert that goes out by SMS. *)
Lemma dispatch_keeps_alert_content_witness :
  exists a,
    alert_after (run (send_glof_alert world_ok "Pangong Tso" HIGH (Some "X")
                        None) sample_system) = Some a
    /\ glacial_lake a = "Pangong Tso"
    /\ contacts a
       = [Some "Defence_Base"; Some "emergency_team_1";
          Some "rescue_pangong_1"].
Proof.
  eexists. split; [reflexivity |].
  destruct (dispatch_keeps_alert_content sample_system world_ok "Pangong Tso"
              HIGH (Some "X") None _ eq_refl)
    as (_ & Hlake & _ & Hcs & _).
  split; [exact Hlake | exact Hcs].
Defined.

(** X18.  What [send_glof_alert] returns mirrors the status it leaves: it
    returns [True] exactly when the record ends [SENT] or [OFFLINE_QUEUED],
    a queued record has no sent time, and a record can only be left
    [PENDING] when an exception escaped from the SMS call. *)
Theorem result_mirrors_status (self : GLOFAlertSystem) (w : World)
    (lake : string) (level : GLOFRiskLevel) (info : option string)
    (types : option (list UserType)) (a : GLOFAlert) :
  alert_after (run (send_glof_alert w lake level info types) self) = Some a ->
  (result_of (run (send_glof_alert w lake level info types) self) = Ret true
   <-> status a = SENT \/ status a = OFFLINE_QUEUED)
  /\ (result_of (run (send_glof_alert w lake level info types) self) = Ret false
      <-> status a = FAILED \/ status a = PENDING)
  /\ (status a = OFFLINE_QUEUED -> sent_at a = None)
  /\ (status a = PENDING ->
      sms_escaped (trace_of (run (send_glof_alert w lake level info types) self))
      = true).
Proof.
  destruct (send_glof_alert_cases self w lake level info types)
    as [[_ Hrun] | [_ (b & self' & a' & t & Hrun & Hd)]];
    rewrite Hrun; unfold alert_after, result_of, trace_of, mem_of;
    cbn [fst snd m_alert].
  - discriminate.
  - intros [= <-].
    inversion Hd; subst; cbn [status sent_at set_status set_sent_at new_alert];
      (split; [split; [intros; auto; discriminate
                      | intros [Hst | Hst]; reflexivity || discriminate] |]);
      (split; [split; [intros; auto; discriminate
                      | intros [Hst | Hst]; reflexivity || discriminate] |]);
      (split; [intros; reflexivity || discriminate |]);
      intros; assumption || discriminate.
Qed.

(** X18 on a dispatch that is queued offline. *)
Lemma result_mirrors_status_witness :
  exists a,
    alert_after (run (send_glof_alert world_all_down "Pangong Tso" HIGH None
                        None) offline_system) = Some a
    /\ status a = OFFLINE_QUEUED
    /\ sent_at a = None.
Proof.
  eexists. split; [reflexivity |].
  destruct (result_mirrors_status offline_system world_all_down "Pangong Tso"
              HIGH None None _ eq_refl) as (Htrue & _ & Hq & _).
  assert (Hst : status
                  (set_status OFFLINE_QUEUED
                     (new_alert world_all_down "Pangong Tso" HIGH None
                        predefined_contacts)) = OFFLINE_QUEUED).
  { destruct (proj1 Htrue eq_refl) as [H | H]; [discriminate H | exact H]. }
  split; [exact Hst | exact (Hq Hst)].
Defined.

Lemma exec_op_queue_marked (op : Op) (self : GLOFAlertSystem) :
  forallb is_queued_record (queue_of self) = true ->
  forallb is_queued_record (queue_of (fst (exec_op op self))) = true.
Proof.
  intros Hq.
  destruct op as [w lake level info types | w lake types | | w];
    cbn [exec_op fst].
  - destruct (send_glof_alert_cases self w lake level info types)
      as [[_ Hrun] | [_ (b & self' & a' & t & Hrun & Hd)]];
      rewrite Hrun; unfold system_after, mem_of; cbn [fst snd m_self].
    + exact Hq.
    + inversion Hd; subst; try exact Hq.
      unfold queue_of, enqueue in *. cbn.
      rewrite forallb_app, Hq. reflexivity.
  - destruct (send_all_clear_run self w lake types) as (b & t & Hrun & _).
    rewrite Hrun. exact Hq.
  - unfold queue_of. cbn. unfold get_queued_alerts.
    rewrite drain_loop_all. reflexivity.
  - unfold queue_of in *. cbn. unfold check_connectivity.
    destruct (requests_get_ok w); exact Hq.
Qed.

(** X19.  Whatever calls are made on a newly constructed system, and
    whatever the network does, every record waiting in the offline queue
    is marked [OFFLINE_QUEUED] and has no sent time. *)
Theorem queued_records_are_marked (key : string)
    (email_config : option GLOFEmailProvider) (ops : list Op) :
  forallb is_queued_record
    (queue_of (fst (exec_run ops (GLOFAlertSystem_init key email_config))))
  = true.
Proof.
  assert (Hgen : forall self,
             forallb is_queued_record (queue_of self) = true ->
             forallb is_queued_record (queue_of (fst (exec_run ops self)))
             = true).
  { induction ops as [| op rest IH]; intros self Hq; cbn [exec_run].
    - exact Hq.
    - pose proof (exec_op_queue_marked op self Hq) as H1.
      destruct (exec_op op self) as [self1 rep]. cbn [fst] in H1.
      pose proof (IH self1 H1) as H2.
      destruct (exec_run rest self1) as [self2 reps]. exact H2. }
  apply Hgen. reflexivity.
Qed.

(** X20.  While the connectivity flag is offline no SMTP step is ever
    taken: [send_glof_alert] attempts no email, even when its SMS went
    through, and [send_all_clear] does nothing at all. *)
Theorem offline_means_no_email (self : GLOFAlertSystem) (w : World)
    (lake : string) (level : GLOFRiskLevel) (info : option string)
    (types : option (list UserType)) :
  online self = false ->
  email_attempted
    (trace_of (run (send_glof_alert w lake level info types) self)) = false
  /\ trace_of (run (send_all_clear w lake types) self) = [].
Proof.
  intros Hoff. split.
  - destruct (get_contacts_for_lake (contact_manager self) lake
                (default_user_types types)) as [| c cs] eqn:Hcs.
    + rewrite (send_glof_alert_no_contacts self w lake level info types Hcs).
      reflexivity.
    + rewrite send_glof_alert_unfold by (rewrite Hcs; discriminate).
      rewrite Hcs.
      destruct (_send_alert_trace self w (c :: cs)
                  (new_alert w lake level info (c :: cs)))
        as (ts & tm & Ht & Hs & Hm).
      rewrite Ht.
      destruct Hm as [-> | (Hon & _)]; [| congruence].
      rewrite app_nil_r.
      destruct Hs as [[_ ->] | [_ [r ->]]]; reflexivity.
  - rewrite (send_all_clear_offline self w lake types Hoff). reflexivity.
Qed.

(** X20 on the predefined contacts with a working gateway and relay. *)
Lemma offline_means_no_email_witness :
  email_attempted
    (trace_of (run (send_glof_alert world_ok "Pangong Tso" HIGH None None)
                 offline_system)) = false
  /\ trace_of (run (send_all_clear world_ok "Pangong Tso" None) offline_system)
     = [].
Proof.
  apply (offline_means_no_email offline_system world_ok "Pangong Tso" HIGH
           None None).
  reflexivity.
Defined.

(** X21.  Whenever a contact found for the lake has a phone number, the
    first thing [send_glof_alert] does, online or offline, is one POST to
    the gateway carrying the formatted alert text and the cleaned,
    comma-joined numbers of the found contacts that have a phone. *)
Theorem sms_goes_first (self : GLOFAlertSystem) (w : World)
    (lake : string) (level : GLOFRiskLevel) (info : option string)
    (types : option (list UserType)) :
  phones_of (get_contacts_for_lake (contact_manager self) lake
               (default_user_types types)) <> [] ->
  exists r rest,
    trace_of (run (send_glof_alert w lake level info types) self)
    = EvHttpPost
        {| p_authorization := api_key (sms_provider self);
           p_sender_id := sender_id (sms_provider self);
           p_message := format_glof_message (now_ist w) lake level
                          (Some (now_ist w)) info;
           p_language := "english";
           p_route := "q";
           p_numbers :=
             PyStr.join ","
               (map clean_number
                  (phones_of
                     (get_contacts_for_lake (contact_manager self) lake
                        (default_user_types types)))) |}
      :: EvSmsResult r :: rest.
Proof.
  intros Hph.
  assert (Hcs : get_contacts_for_lake (contact_manager self) lake
                  (default_user_types types) <> []).
  { intros E. rewrite E in Hph. apply Hph. reflexivity. }
  rewrite (send_glof_alert_unfold self w lake level info types Hcs).
  destruct (_send_alert_trace self w
              (get_contacts_for_lake (contact_manager self) lake
                 (default_user_types types))
              (new_alert w lake level info
                 (get_contacts_for_lake (contact_manager self) lake
                    (default_user_types types))))
    as (ts & tm & Ht & Hs & _).
  rewrite Ht.
  destruct Hs as [[E _] | [_ [r ->]]]; [contradiction |].
  exists r, tm. reflexivity.
Qed.

(** X21 on the predefined contacts, flagged offline. *)
Lemma sms_goes_first_witness :
  exists r rest,
    channel_attempts
      (trace_of (run (send_glof_alert world_all_down "Pangong Tso" HIGH None
                        None) offline_system))
    = inl "8956911720,9765743155,9699216764" :: channel_attempts (r :: rest).
Proof.
  destruct (sms_goes_first offline_system world_all_down "Pangong Tso" HIGH
              None None) as (r & rest & Ht).
  - discriminate.
  - exists (EvSmsResult r), rest. rewrite Ht. reflexivity.
Defined.



(* ================================================================== *)
(** ** The routes of [app.py] *)

Lemma predefined_contacts_cover (lake : string) :
  get_contacts_for_lake GLOFContactManager_init lake (Some all_user_types)
  = predefined_contacts.
Proof. reflexivity. Qed.

(** X23.  The [/alert] handler answers every request with status 200 and a
    status text that is "success" exactly when the SMS call or the email
    call succeeded, and "failed" otherwise.  Because it builds a new alert
    system for each request, the alert is never queued offline. *)
Theorem alert_route_reply (w : World) (data : App.AlertData) :
  App.code (App.send_alert w data) = 200
  /\ (App.body (App.send_alert w data)
      = App.JsonObject [("status", "success")]
      \/ App.body (App.send_alert w data)
         = App.JsonObject [("status", "failed")])
  /\ (App.body (App.send_alert w data) = App.JsonObject [("status", "success")]
      <-> sms_succeeded (trace_of (App.alert_dispatch w data))
          || email_succeeded (trace_of (App.alert_dispatch w data)) = true)
  /\ queue_of (system_after (App.alert_dispatch w data)) = []
  /\ (forall a, alert_after (App.alert_dispatch w data) = Some a ->
                status a <> OFFLINE_QUEUED).
Proof.
  unfold App.send_alert, App.alert_dispatch.
  destruct (send_glof_alert_cases App.glof_system w (App.lake_of data)
              (risk_level_of_score (fst (App.score_of data)))
              (Some ("Automated alert: Risk score "
                     ++ snd (App.score_of data) ++ "%")%string)
              None)
    as [[Hcs _] | [_ (b & self' & a' & t & Hrun & Hd)]].
  - cbn in Hcs. discriminate.
  - rewrite Hrun.
    unfold result_of, trace_of, system_after, alert_after, mem_of.
    cbn [fst snd m_self m_alert App.code App.body].
    inversion Hd as [t0 Hoff | t0 Hok | t0 Hss Hes | t0 _ _ _ Hss Hea];
      subst; cbn [status set_status set_sent_at].
    + discriminate Hoff.
    + rewrite Hok. repeat split; auto; try discriminate.
      intros a [= <-]. discriminate.
    + rewrite Hss, Hes. repeat split; auto; try discriminate.
      intros a [= <-]. discriminate.
    + rewrite Hss, (email_success_attempted _ Hea).
      repeat split; auto; try discriminate.
      intros a [= <-]. discriminate.
Qed.

(** X24.  Every request to [/alert], whatever lake it names and whatever
    its score, is first posted by SMS to the three predefined numbers, with
    a text that ends with the score line; the alert record names the
    requested lake, the level mapped from the score and the three contacts.
    A request without [lake_name] is dispatched for "Unknown Lake", one
    without [risk_score] with score 0, hence as MODERATE. *)
Theorem alert_route_reaches_contacts (w : World) (data : App.AlertData) :
  (exists r rest,
     trace_of (App.alert_dispatch w data)
     = EvHttpPost
         {| p_authorization := App.FAST2SMS_API_KEY;
            p_sender_id := "GLOF";
            p_message :=
              (format_glof_message (now_ist w) (App.lake_of data)
                 (risk_level_of_score (fst (App.score_of data)))
                 (Some (now_ist w)) None
               ++ PyStr.nl ++ PyStr.nl
               ++ "*Additional Info:* Automated alert: Risk score "
               ++ snd (App.score_of data) ++ "%")%string;
            p_language := "english";
            p_route := "q";
            p_numbers := "8956911720,9765743155,9699216764" |}
       :: EvSmsResult r :: rest)
  /\ (exists a,
        alert_after (App.alert_dispatch w data) = Some a
        /\ glacial_lake a = App.lake_of data
        /\ risk_level a = risk_level_of_score (fst (App.score_of data))
        /\ contacts a
           = [Some "Defence_Base"; Some "emergency_team_1";
              Some "rescue_pangong_1"])
  /\ (App.lake_name data = None -> App.lake_of data = "Unknown Lake")
  /\ (App.risk_score data = None ->
      risk_level_of_score (fst (App.score_of data)) = MODERATE).
Proof.
  unfold App.alert_dispatch, App.glof_system.
  set (lake := App.lake_of data).
  set (level := risk_level_of_score (fst (App.score_of data))).
  set (info := ("Automated alert: Risk score " ++ snd (App.score_of data)
                ++ "%")%string).
  assert (Hcs : get_contacts_for_lake
                  (contact_manager
                     (GLOFAlertSystem_init App.FAST2SMS_API_KEY
                        (Some App.email_config)))
                  lake (default_user_types None) = predefined_contacts)
    by reflexivity.
  split; [| split; [| split]].
  - rewrite send_glof_alert_unfold by (rewrite Hcs; discriminate).
    rewrite Hcs.
    destruct (_send_alert_trace
                (GLOFAlertSystem_init App.FAST2SMS_API_KEY
                   (Some App.email_config))
                w predefined_contacts
                (new_alert w lake level (Some info) predefined_contacts))
      as (ts & tm & Ht & Hs & _).
    rewrite Ht.
    destruct Hs as [[E _] | [_ [r ->]]]; [discriminate E |].
    exists r, tm. reflexivity.
  - destruct (send_glof_alert_cases
                (GLOFAlertSystem_init App.FAST2SMS_API_KEY
                   (Some App.email_config))
                w lake level (Some info) None)
      as [[E _] | [_ (b & self' & a' & t & Hrun & Hd)]].
    + rewrite Hcs in E. discriminate E.
    + rewrite Hrun. unfold alert_after, mem_of. cbn [fst snd m_alert].
      exists a'. split; [reflexivity |].
      rewrite Hcs in Hd. inversion Hd; subst; repeat split.
  - unfold lake, App.lake_of. intros ->. reflexivity.
  - unfold level, App.score_of. intros ->. reflexivity.
Qed.

(** X24 on a request that gives neither lake nor score. *)
Lemma alert_route_reaches_contacts_witness :
  App.lake_of {| App.lake_name := None; App.risk_score := None |}
  = "Unknown Lake"
  /\ risk_level_of_score
       (fst (App.score_of {| App.lake_name := None; App.risk_score := None |}))
     = MODERATE.
Proof.
  destruct (alert_route_reaches_contacts world_ok
              {| App.lake_name := None; App.risk_score := None |})
    as (_ & _ & Hlake & Hlevel).
  split; [apply Hlake | apply Hlevel]; reflexivity.
Defined.

(** X25.  [get_weather] answers 400 without calling the weather service
    when a coordinate is missing or empty.  Otherwise it makes exactly one
    request, to the URL built from the two coordinates, and answers 200
    with the body as it came whenever that body decodes, whatever the
    upstream status was, and 500 when the request or the decoding
    raised. *)
Theorem weather_route (requests_get : string -> res Response)
    (lat lon : option string) :
  (info_truthy lat && info_truthy lon = false ->
   App.get_weather requests_get lat lon = (App.missing_coordinates, []))
  /\ (forall la lo,
        lat = Some la -> lon = Some lo ->
        PyStr.truthy la = true -> PyStr.truthy lo = true ->
        snd (App.get_weather requests_get lat lon) = [App.weather_url la lo]
        /\ (forall j,
              fst (App.get_weather requests_get lat lon)
              = {| App.code := 200; App.body := App.JsonText j |}
              <-> exists response,
                    requests_get (App.weather_url la lo) = Ret response
                    /\ resp_json response = Ret j)
        /\ (App.code (fst (App.get_weather requests_get lat lon)) = 200
            \/ App.code (fst (App.get_weather requests_get lat lon)) = 500)
        /\ (forall e,
              requests_get (App.weather_url la lo) = Raise e ->
              fst (App.get_weather requests_get lat lon)
              = {| App.code := 500;
                   App.body := App.JsonObject [("error", exn_str e)] |})
        /\ (forall response e,
              requests_get (App.weather_url la lo) = Ret response ->
              resp_json response = Raise e ->
              fst (App.get_weather requests_get lat lon)
              = {| App.code := 500;
                   App.body := App.JsonObject [("error", exn_str e)] |})
        /\ (App.code (fst (App.get_weather requests_get lat lon)) = 200
            <-> exists response j,
                  requests_get (App.weather_url la lo) = Ret response
                  /\ resp_json response = Ret j)).
Proof.
  split.
  - unfold App.get_weather, info_truthy.
    destruct lat as [la |], lon as [lo |]; try reflexivity.
    intros H. apply andb_false_iff in H.
    destruct (PyStr.truthy la), (PyStr.truthy lo); try reflexivity.
    destruct H; discriminate.
  - intros la lo -> -> Hla Hlo. unfold App.get_weather.
    rewrite Hla, Hlo. cbn [negb orb].
    destruct (requests_get (App.weather_url la lo)) as [response | e] eqn:Hget.
    + destruct (resp_json response) as [j | e] eqn:Hj; cbn [fst snd App.code].
      * split; [reflexivity |]. split; [| split; [left; reflexivity |]].
        -- intros j'. split.
           ++ intros [= <-]. exists response. split; [reflexivity | exact Hj].
           ++ intros (r & [= <-] & Hr). congruence.
        -- split; [intros e [=] |].
           split; [intros r e [= <-] Hr; congruence |].
           split; [intros _; exists response, j; split;
                   [reflexivity | exact Hj] | reflexivity].
      * split; [reflexivity |]. split; [| split; [right; reflexivity |]].
        -- intros j'. split; [discriminate |].
           intros (r & [= <-] & Hr). congruence.
        -- split; [intros e' [=] |].
           split; [intros r e' [= <-] Hr; congruence |].
           split; [discriminate |].
           intros (r & j & [= <-] & Hr). congruence.
    + cbn [fst snd App.code]. split; [reflexivity |].
      split; [| split; [right; reflexivity |]].
      * intros j'. split; [discriminate | intros (r & [=] & _)].
      * split; [intros e' [= <-]; reflexivity |].
        split; [intros r e' [=] |].
        split; [discriminate | intros (r & j & [=] & _)].
Qed.

(** X25 on a query without longitude and on a complete one answered with
    an error status and a JSON body. *)
Lemma weather_route_witness :
  App.get_weather (fun _ => Raise (OtherException "unused")) (Some "34.1") None
  = (App.missing_coordinates, [])
  /\ fst (App.get_weather
            (fun _ => Ret {| resp_ok := false;
                             resp_json := Ret "{'cod': 401}" |})
            (Some "34.1") (Some "77.5"))
     = {| App.code := 200; App.body := App.JsonText "{'cod': 401}" |}.
Proof.
  destruct (weather_route (fun _ => Raise (OtherException "unused"))
              (Some "34.1") None) as [Hmissing _].
  destruct (weather_route
              (fun _ => Ret {| resp_ok := false;
                               resp_json := Ret "{'cod': 401}" |})
              (Some "34.1") (Some "77.5")) as [_ Hcall].
  destruct (Hcall "34.1" "77.5" eq_refl eq_refl eq_refl eq_refl)
    as (_ & Hok & _).
  split.
  - apply Hmissing. reflexivity.
  - apply Hok. eexists. split; reflexivity.
Defined.

(** X26.  [get_translations] never fails: a language without a table gets
    the English labels, and for every language code the answer defines the
    same five labels, in the same order. *)
Theorem translations_always_complete (lang : string) :
  exists table,
    App.get_translations lang = Ret table
    /\ map fst table
       = ["dashboard"; "lake_database"; "ml_predictions"; "risk_assessment";
          "safety"]
    /\ (App.dict_get App.TRANSLATIONS lang = None ->
        Some table = App.dict_get App.TRANSLATIONS "en")
    /\ (App.dict_get App.TRANSLATIONS lang = None
        <-> lang <> "en" /\ lang <> "hi" /\ lang <> "mr" /\ lang <> "gu").
Proof.
  unfold App.get_translations, App.dict_get, App.TRANSLATIONS.
  cbn [find fst snd option_map].
  destruct ("en" =? lang) eqn:Een;
    [apply String.eqb_eq in Een; subst lang; cbn;
     eexists; split; [reflexivity |]; split; [reflexivity |];
     split; [discriminate |]; split; [discriminate | intros (H & _); congruence]
    |].
  destruct ("hi" =? lang) eqn:Ehi;
    [apply String.eqb_eq in Ehi; subst lang; cbn;
     eexists; split; [reflexivity |]; split; [reflexivity |];
     split; [discriminate |];
     split; [discriminate | intros (_ & H & _); congruence]
    |].
  destruct ("mr" =? lang) eqn:Emr;
    [apply String.eqb_eq in Emr; subst lang; cbn;
     eexists; split; [reflexivity |]; split; [reflexivity |];
     split; [discriminate |];
     split; [discriminate | intros (_ & _ & H & _); congruence]
    |].
  destruct ("gu" =? lang) eqn:Egu;
    [apply String.eqb_eq in Egu; subst lang; cbn;
     eexists; split; [reflexivity |]; split; [reflexivity |];
     split; [discriminate |];
     split; [discriminate | intros (_ & _ & _ & H); congruence]
    |].
  cbn. eexists. split; [reflexivity |]. split; [reflexivity |].
  split; [reflexivity |]. split; [| reflexivity].
  intros _. apply String.eqb_neq in Een, Ehi, Emr, Egu.
  repeat split; congruence.
Qed.

(* ================================================================== *)
(** ** Further properties of the directory and of the alert record *)

(** X27.  Only contacts that [get_all_contacts] lists are ever found:
    every contact returned for a lake, under any role filter, is an active
    contact of the directory; and without a role filter a contact covering
    "ALL" is found for every lake exactly when [get_all_contacts] lists
    it. *)
Theorem found_contacts_are_listed (self : GLOFContactManager) (lake : string)
    (types : option (list UserType)) (c : GLOFContact) :
  (In c (get_contacts_for_lake self lake types) -> In c (get_all_contacts self))
  /\ (lake_area c = "ALL" ->
      (In c (get_contacts_for_lake self lake None)
       <-> In c (get_all_contacts self))).
Proof.
  unfold get_contacts_for_lake, get_all_contacts.
  rewrite !get_contacts_loop_filter. cbn [app].
  rewrite !filter_In. unfold contact_matches. split.
  - intros [Hin Hm]. split; [exact Hin |].
    destruct ((lake_area c =? "ALL") || (lake_area c =? lake));
      [| discriminate].
    destruct (negb (types_truthy types) || type_in (user_type c) types);
      [exact Hm | discriminate].
  - intros ->. cbn. reflexivity.
Qed.

(** X27 on the second predefined contact and a lake nobody names. *)
Lemma found_contacts_are_listed_witness :
  In (nth 1 predefined_contacts blank_contact)
     (get_contacts_for_lake GLOFContactManager_init "Tso Moriri" None).
Proof.
  destruct (found_contacts_are_listed GLOFContactManager_init "Tso Moriri"
              None (nth 1 predefined_contacts blank_contact)) as [_ Hall].
  apply (Hall eq_refl). cbn. auto.
Defined.

(** X28.  An alert that [send_glof_alert] queues offline comes back from
    [get_queued_alerts] after everything that was queued before it, marked
    [OFFLINE_QUEUED] and carrying the text and the contact ids of the
    call. *)
Theorem queued_alert_is_handed_back (self : GLOFAlertSystem) (w : World)
    (lake : string) (level : GLOFRiskLevel) (info : option string)
    (types : option (list UserType)) :
  online self = false ->
  sms_failed (trace_of (run (send_glof_alert w lake level info types) self))
  = true ->
  exists a,
    fst (get_queued_alerts
           (offline_manager
              (system_after
                 (run (send_glof_alert w lake level info types) self))))
    = queue_of self ++ [a]
    /\ status a = OFFLINE_QUEUED
    /\ message a
       = format_glof_message (now_ist w) lake level (Some (now_ist w)) info
    /\ contacts a
       = map id (get_contacts_for_lake (contact_manager self) lake
                   (default_user_types types)).
Proof.
  intros Hoff.
  destruct (send_glof_alert_cases self w lake level info types)
    as [[_ Hrun] | [_ (b & self' & a' & t & Hrun & Hd)]];
    rewrite Hrun; unfold trace_of, system_after, mem_of;
    cbn [fst snd m_self].
  - discriminate.
  - intros Hfail. rewrite get_queued_alerts_all. cbn [fst].
    inversion Hd as [t0 _ | t0 _ _ Hon | t0 _ _ _ Hon | t0 Hon]; subst;
      try (rewrite (Hon Hfail) in Hoff; discriminate);
      try (rewrite Hon in Hoff; discriminate).
    eexists. split; [reflexivity |]. repeat split.
Qed.

(** X28 on the predefined contacts, offline, with the gateway down. *)
Lemma queued_alert_is_handed_back_witness :
  exists a,
    fst (get_queued_alerts
           (offline_manager
              (system_after
                 (run (send_glof_alert world_all_down "Pangong Tso" HIGH None
                         None) offline_system)))) = [a]
    /\ status a = OFFLINE_QUEUED.
Proof.
  destruct (queued_alert_is_handed_back offline_system world_all_down
              "Pangong Tso" HIGH None None eq_refl eq_refl)
    as (a & Hq & Hst & _).
  exists a. split; [exact Hq | exact Hst].
Defined.






(** X30.  When contacts are found for the lake but none of them has a
    phone number or an email address, [send_glof_alert] tries no channel,
    marks the alert [FAILED] and returns [False], and [send_all_clear]
    returns [False]. *)
Theorem unreachable_contacts_fail (self : GLOFAlertSystem) (w : World)
    (lake : string) (level : GLOFRiskLevel) (info : option string)
    (types : option (list UserType)) :
  get_contacts_for_lake (contact_manager self) lake (default_user_types types)
  <> [] ->
  phones_of (get_contacts_for_lake (contact_manager self) lake
               (default_user_types types)) = [] ->
  emails_of (get_contacts_for_lake (contact_manager self) lake
               (default_user_types types)) = [] ->
  trace_of (run (send_glof_alert w lake level info types) self) = []
  /\ result_of (run (send_glof_alert w lake level info types) self) = Ret false
  /\ option_map status
       (alert_after (run (send_glof_alert w lake level info types) self))
     = Some FAILED
  /\ result_of (run (send_all_clear w lake types) self) = Ret false.
Proof.
  intros Hcs Hph Hem.
  assert (Ht : trace_of (run (send_glof_alert w lake level info types) self)
               = []).
  { rewrite (send_glof_alert_unfold self w lake level info types Hcs).
    destruct (_send_alert_trace self w
                (get_contacts_for_lake (contact_manager self) lake
                   (default_user_types types))
                (new_alert w lake level info
                   (get_contacts_for_lake (contact_manager self) lake
                      (default_user_types types))))
      as (ts & tm & Ht & Hs & Hm).
    rewrite Ht.
    destruct Hs as [[_ ->] | [Hne _]]; [| contradiction].
    destruct Hm as [-> | (_ & Hne & _)]; [reflexivity | contradiction]. }
  split; [exact Ht |].
  revert Ht.
  destruct (send_glof_alert_cases self w lake level info types)
    as [[E _] | [_ (b & self' & a' & t & Hrun & Hd)]]; [contradiction |].
  rewrite Hrun. unfold trace_of, result_of, alert_after, mem_of.
  cbn [fst snd m_alert]. intros ->.
  split; [| split].
  - inversion Hd as [t0 _ Hsa | t0 Hok | t0 | t0 _ Hsa]; subst;
      try discriminate; reflexivity.
  - inversion Hd as [t0 _ Hsa | t0 Hok | t0 | t0 _ Hsa]; subst;
      try discriminate; reflexivity.
  - rewrite (send_all_clear_unfold self w lake types Hcs).
    destruct (_send_message_trace w
                (get_contacts_for_lake (contact_manager self) lake
                   (default_user_types types))
                (format_all_clear_message (now_ist w) lake None)
                ("GLOF All Clear - " ++ lake) (start self))
      as (b' & ts & tm & Hrun' & Hs & Hm & Hor).
    rewrite Hrun'. unfold result_of. cbn [fst].
    destruct Hs as [-> | (_ & Hne & _)]; [| contradiction].
    destruct Hm as [-> | (_ & Hne & _)]; [| contradiction].
    destruct b'; [| reflexivity].
    destruct Hor as [Hor _]. specialize (Hor eq_refl). discriminate.
Qed.

(** X30 on a directory whose only contact has neither phone nor email. *)
Lemma unreachable_contacts_fail_witness :
  trace_of (run (send_glof_alert world_ok "Pangong Tso" CRITICAL None None)
              unreachable_system) = []
  /\ result_of (run (send_glof_alert world_ok "Pangong Tso" CRITICAL None None)
                  unreachable_system) = Ret false
  /\ option_map status
       (alert_after (run (send_glof_alert world_ok "Pangong Tso" CRITICAL None
                            None) unreachable_system))
     = Some FAILED
  /\ result_of (run (send_all_clear world_ok "Pangong Tso" None)
                  unreachable_system) = Ret false.
Proof.
  apply (unreachable_contacts_fail unreachable_system world_ok "Pangong Tso"
           CRITICAL None None); [discriminate | reflexivity | reflexivity].
Defined.
